(** * CounterApp: the wallet session of [src/lib/contract.ts]

    A shallow embedding of the class [CounterContractService] and a
    verification of its connection logic: what [connect] writes into the
    session and when, which wallet requests it issues, how failures travel
    through its two [catch] blocks, and what the read and write operations
    do on a session that is or is not connected.

    The class talks to three things that are not part of the repository:
    the wallet injected at [window.ethereum], the ethers library and the
    chain behind them.  They are modelled as an arbitrary deterministic
    environment [Env] over an arbitrary world type; every theorem of the
    general part holds for all of them.  Each [async] method is run from its
    call to its completion without another method of the service running in
    between (the event loop is not modelled).  [console.log] and
    [console.error] are left out: they return nothing and do not throw. *)

From Stdlib Require Import String Ascii ZArith List Bool Lia DecimalString.
Import ListNotations.
Local Open Scope string_scope.
Local Open Scope Z_scope.

Set Implicit Arguments.

(** ** JavaScript values that the code inspects *)

(** A thrown value, as far as the handlers of [contract.ts] look at it:
    [instanceof Error], [.message] and [.code].  [code] is [Some n] when the
    property is the number [n] and [None] when it is missing or anything that
    is not [=== ] to a number. *)
Inductive JsThrown : Type :=
| JsError (message : string) (code : option Z)   (* err instanceof Error *)
| JsObject (code : option Z)                     (* any other non-nullish value *)
| JsUndefined
| JsNull.

Inductive result (A : Type) : Type :=
| Ok (a : A)
| Throw (e : JsThrown).
Arguments Ok {A} a.
Arguments Throw {A} e.

(** [String.prototype.includes] with a pure ASCII needle.  The file keeps
    strings as UTF-8 bytes; for an ASCII needle a match on bytes is a match
    on UTF-16 code units and the other way round. *)
Fixpoint includes (s needle : string) : bool :=
  String.prefix needle s ||
  match s with
  | EmptyString => false
  | String _ rest => includes rest needle
  end.

(** What [new Error(message)] builds. *)
Definition new_Error (message : string) : JsThrown := JsError message None.

(** What V8 throws when a property of [undefined] or [null] is read. *)
Definition TypeError_reading (what prop : string) : JsThrown :=
  JsError ("Cannot read properties of " ++ what ++ " (reading '" ++ prop ++ "')") None.

(** [switchError.code]: reading a property of a thrown value. *)
Definition property_code (e : JsThrown) : result (option Z) :=
  match e with
  | JsError _ c => Ok c
  | JsObject c => Ok c
  | JsUndefined => Throw (TypeError_reading "undefined" "code")
  | JsNull => Throw (TypeError_reading "null" "code")
  end.

(** [code === n] for a number [n]. *)
Definition strict_equals (code : option Z) (n : Z) : bool :=
  match code with
  | Some c => c =? n
  | None => false
  end.

(** ** Handles, network identity and wallet requests *)

Record BrowserProvider : Type := { provider_id : nat }.

Record JsonRpcSigner : Type :=
  { signer_id : nat;
    signer_provider : BrowserProvider;
    signer_address : string }.

Record Contract : Type :=
  { contract_id : nat;
    target : string;
    runner : option JsonRpcSigner }.

Record Network : Type := { name : string; chainId : Z }.

Record ContractTransactionResponse : Type := { hash : string }.

Record NativeCurrency : Type :=
  { currency_name : string; symbol : string; decimals : Z }.

Record AddChainParameter : Type :=
  { add_chainId : string;
    chainName : string;
    nativeCurrency : NativeCurrency;
    rpcUrls : list string;
    blockExplorerUrls : list string }.

(** The argument of [window.ethereum.request]. *)
Inductive Request : Type :=
| eth_requestAccounts
| wallet_switchEthereumChain (chain : string)
| wallet_addEthereumChain (descriptor : AddChainParameter).

(** The state-changing members of the contract. *)
Inductive SendMethod : Type := m_incrementCounter | m_decrementCounter | m_resetCounter.

(** The private fields of [CounterContractService]. *)
Record Session : Type :=
  { contract : option Contract;
    provider : option BrowserProvider;
    signer : option JsonRpcSigner }.

(** [new CounterContractService()]: the three fields start as [null]. *)
Definition new_CounterContractService : Session :=
  {| contract := None; provider := None; signer := None |}.

(** One interaction with the outside, with what came back. *)
Inductive Event : Type :=
| EvRequest (r : Request) (res : result unit)
| EvNewProvider (p : BrowserProvider)
| EvGetSigner (p : BrowserProvider) (res : result JsonRpcSigner)
| EvGetNetwork (p : BrowserProvider) (res : result Network)
| EvGetCode (p : BrowserProvider) (address : string) (res : result string)
| EvNewContract (c : Contract)
| EvGetCounter (c : Contract) (res : result Z)
| EvOwner (c : Contract) (res : result string)
| EvSend (c : Contract) (m : SendMethod) (res : result ContractTransactionResponse)
| EvWait (tx : ContractTransactionResponse) (res : result unit)
| EvGetAddress (s : JsonRpcSigner) (res : result string).

(** ** Messages of the errors the service creates *)

Definition newline : string := String (ascii_of_nat 10) EmptyString.

Definition msg_browser_only : string :=
  "이 함수는 브라우저에서만 실행할 수 있습니다.".
Definition msg_no_metamask : string :=
  "MetaMask가 설치되지 않았습니다.".
Definition msg_connect_failed : string :=
  "지갑 연결에 실패했습니다.".
Definition msg_contract_not_connected : string :=
  "컨트랙트에 연결되지 않았습니다.".
Definition msg_counter_unreadable : string :=
  "컨트랙트에서 데이터를 읽을 수 없습니다. 잘못된 컨트랙트 주소 또는 네트워크일 수 있습니다.".
Definition msg_owner_unreadable : string :=
  "컨트랙트 소유자 정보를 읽을 수 없습니다.".
Definition msg_wallet_not_connected : string :=
  "지갑에 연결되지 않았습니다.".
Definition msg_provider_not_connected : string :=
  "프로바이더에 연결되지 않았습니다.".

Definition not_deployed_prefix : string := "컨트랙트가 지정된 주소(".

(** [Number(network.chainId)].  The conversion of a bigint to a double is
    exact below 2^53, which is where chain identifiers live; the model is
    the identity and covers that range. *)
Definition Number (n : Z) : Z := n.

(** A number inside a template literal, in that same range. *)
Definition number_to_string (n : Z) : string := NilZero.string_of_int (Z.to_int n).

(** The template literal of [connect], line 95. *)
Definition not_deployed_message (address network_name : string) (chain : Z) : string :=
  not_deployed_prefix ++ address ++ ")에 배포되지 않았습니다." ++ newline
  ++ "현재 네트워크: " ++ network_name ++ " (Chain ID: " ++ number_to_string chain ++ ")"
  ++ newline ++ "Remix에서 배포한 네트워크와 동일한지 확인하세요.".

(** The names the specification gives to the errors, read off the message
    (the code throws plain [Error]s). *)
Inductive ErrorKind : Type :=
| EnvironmentError
| WalletMissingError
| NotConnectedError
| ContractNotFoundError
| ContractReadError
| WalletConnectionError.

Definition error_kind (e : JsThrown) : option ErrorKind :=
  match e with
  | JsError m _ =>
      if String.eqb m msg_browser_only then Some EnvironmentError
      else if String.eqb m msg_no_metamask then Some WalletMissingError
      else if String.eqb m msg_contract_not_connected
              || String.eqb m msg_wallet_not_connected
              || String.eqb m msg_provider_not_connected then Some NotConnectedError
      else if String.eqb m msg_counter_unreadable
              || String.eqb m msg_owner_unreadable then Some ContractReadError
      else if String.eqb m msg_connect_failed then Some WalletConnectionError
      else if String.prefix not_deployed_prefix m then Some ContractNotFoundError
      else None
  | _ => None
  end.

(** ** Constants of [connect] *)

Definition SEPOLIA_CHAIN_ID : string := "0xaa36a7".
Definition SEPOLIA_CHAIN_ID_DECIMAL : Z := 11155111.

Definition sepolia_parameter : AddChainParameter :=
  {| add_chainId := SEPOLIA_CHAIN_ID;
     chainName := "Sepolia";
     nativeCurrency := {| currency_name := "ETH"; symbol := "ETH"; decimals := 18 |};
     rpcUrls := ["https://ethereum-sepolia-rpc.publicnode.com"];
     blockExplorerUrls := ["https://sepolia.etherscan.io"] |}.

(** ** The environment and the monad of the methods *)

(** Everything the service calls and does not define.  Each call may change
    the world and may throw.  [env_getSigner] returns the address of the
    account; the signer object itself is built on the service's side. *)
Record Env (W : Type) : Type :=
  { env_window : W -> bool;           (* typeof window !== 'undefined' *)
    env_ethereum : W -> bool;          (* window.ethereum is truthy *)
    env_request : Request -> W -> result unit * W;
    env_getSigner : BrowserProvider -> W -> result string * W;
    env_getNetwork : BrowserProvider -> W -> result Network * W;
    env_getCode : BrowserProvider -> string -> W -> result string * W;
    env_getCounter : Contract -> W -> result Z * W;
    env_owner : Contract -> W -> result string * W;
    env_send : SendMethod -> Contract -> W -> result ContractTransactionResponse * W;
    env_wait : ContractTransactionResponse -> W -> result unit * W;
    env_getAddress : JsonRpcSigner -> W -> result string * W }.

(** The service object, the world around it and the next free object
    identity. *)
Record State (W : Type) : Type :=
  { this : Session; world : W; heap_next : nat }.

Section Service.

Variable W : Type.
Variable env : Env W.

(** [contractAddress] of [./constants], a build-time constant that is not
    part of the sources at hand. *)
Variable contractAddress : string.

(** A method body: it reads and writes the state, returns or throws, and
    leaves the list of its interactions.  A throw keeps the state reached
    so far, as in JavaScript. *)
Definition M (A : Type) : Type := State W -> result A * State W * list Event.

Definition ret {A} (a : A) : M A := fun s => (Ok a, s, []).

Definition throw {A} (e : JsThrown) : M A := fun s => (Throw e, s, []).

Definition bind {A B} (m : M A) (k : A -> M B) : M B := fun s =>
  match m s with
  | (Ok a, s1, t1) =>
      match k a s1 with
      | (r, s2, t2) => (r, s2, (t1 ++ t2)%list)
      end
  | (Throw e, s1, t1) => (Throw e, s1, t1)
  end.

(** [try { m } catch (e) { h e }] *)
Definition try_catch {A} (m : M A) (h : JsThrown -> M A) : M A := fun s =>
  match m s with
  | (Ok a, s1, t1) => (Ok a, s1, t1)
  | (Throw e, s1, t1) =>
      match h e s1 with
      | (r, s2, t2) => (r, s2, (t1 ++ t2)%list)
      end
  end.

Notation "x <- m ;; k" := (bind m (fun x => k))
  (at level 61, m at next level, right associativity).
Notation "m ;;; k" := (bind m (fun _ => k))
  (at level 61, right associativity).

(** A call of the environment, recorded with its outcome. *)
Definition call {A} (f : W -> result A * W) (ev : result A -> Event) : M A := fun s =>
  match f (world s) with
  | (r, w) => (r, {| this := this s; world := w; heap_next := heap_next s |}, [ev r])
  end.

Definition get_this : M Session := fun s => (Ok (this s), s, []).

Definition get_world : M W := fun s => (Ok (world s), s, []).

Definition set_this (x : Session) : M unit := fun s =>
  (Ok tt, {| this := x; world := world s; heap_next := heap_next s |}, []).

Definition fresh_id : M nat := fun s =>
  (Ok (heap_next s),
   {| this := this s; world := world s; heap_next := S (heap_next s) |}, []).

Definition emit (ev : Event) : M unit := fun s => (Ok tt, s, [ev]).

(** [this.provider = p], [this.signer = sg], [this.contract = c] *)
Definition set_provider (p : BrowserProvider) : M unit :=
  x <- get_this ;;
  set_this {| contract := contract x; provider := Some p; signer := signer x |}.

Definition set_signer (sg : JsonRpcSigner) : M unit :=
  x <- get_this ;;
  set_this {| contract := contract x; provider := provider x; signer := Some sg |}.

Definition set_contract (c : Contract) : M unit :=
  x <- get_this ;;
  set_this {| contract := Some c; provider := provider x; signer := signer x |}.

(** [this.provider.<prop>]: the field is read again at each use. *)
Definition this_provider (prop : string) : M BrowserProvider :=
  x <- get_this ;;
  match provider x with
  | Some p => ret p
  | None => throw (TypeError_reading "null" prop)
  end.

(** [window.ethereum.request({ method, params })]; the value it resolves
    to is not used. *)
Definition request (r : Request) : M unit :=
  call (env_request env r) (EvRequest r).

(** [new ethers.BrowserProvider(window.ethereum)] *)
Definition new_BrowserProvider : M BrowserProvider :=
  i <- fresh_id ;;
  let p := {| provider_id := i |} in
  emit (EvNewProvider p) ;;;
  ret p.

(** [await p.getSigner()] *)
Definition provider_getSigner (p : BrowserProvider) : M JsonRpcSigner := fun s =>
  match env_getSigner env p (world s) with
  | (Ok address, w) =>
      let sg := {| signer_id := heap_next s; signer_provider := p;
                   signer_address := address |} in
      (Ok sg, {| this := this s; world := w; heap_next := S (heap_next s) |},
       [EvGetSigner p (Ok sg)])
  | (Throw e, w) =>
      (Throw e, {| this := this s; world := w; heap_next := heap_next s |},
       [EvGetSigner p (Throw e)])
  end.

(** [await p.getNetwork()] and [await p.getCode(address)] *)
Definition provider_getNetwork (p : BrowserProvider) : M Network :=
  call (env_getNetwork env p) (EvGetNetwork p).

Definition provider_getCode (p : BrowserProvider) (address : string) : M string :=
  call (env_getCode env p address) (EvGetCode p address).

(** [new ethers.Contract(address, CounterABI, runner)] with the fixed ABI. *)
Definition new_Contract (address : string) (r : option JsonRpcSigner) : M Contract :=
  i <- fresh_id ;;
  let c := {| contract_id := i; target := address; runner := r |} in
  emit (EvNewContract c) ;;;
  ret c.

(** *** connect *)

(** The inner [catch (switchError)], lines 52 to 75. *)
Definition switch_catch (switchError : JsThrown) : M unit :=
  match property_code switchError with
  | Throw e => throw e
  | Ok code =>
      if strict_equals code 4902
      then request (wallet_addEthereumChain sepolia_parameter)
      else throw switchError
  end.

(** The body of the outer [try], lines 29 to 106. *)
Definition connect_try : M unit :=
  request eth_requestAccounts ;;;
  p <- new_BrowserProvider ;;
  set_provider p ;;;
  p0 <- this_provider "getSigner" ;;
  sg <- provider_getSigner p0 ;;
  set_signer sg ;;;
  p1 <- this_provider "getNetwork" ;;
  network <- provider_getNetwork p1 ;;
  let chain := Number (chainId network) in
  (if negb (chain =? SEPOLIA_CHAIN_ID_DECIMAL) then
     try_catch (request (wallet_switchEthereumChain SEPOLIA_CHAIN_ID)) switch_catch ;;;
     p' <- new_BrowserProvider ;;
     set_provider p' ;;;
     p2 <- this_provider "getSigner" ;;
     sg' <- provider_getSigner p2 ;;
     set_signer sg' ;;;
     p3 <- this_provider "getNetwork" ;;
     provider_getNetwork p3 ;;;
     ret tt
   else ret tt) ;;;
  p4 <- this_provider "getCode" ;;
  code <- provider_getCode p4 contractAddress ;;
  if String.eqb code "0x" then
    throw (new_Error (not_deployed_message contractAddress (name network) chain))
  else
    x <- get_this ;;
    c <- new_Contract contractAddress (signer x) ;;
    set_contract c.

(** The outer [catch (err)], lines 107 to 116. *)
Definition connect_catch (err : JsThrown) : M unit :=
  match err with
  | JsError message _ =>
      if includes message "already pending" then ret tt else throw err
  | _ => throw (new_Error msg_connect_failed)
  end.

Definition connect : M unit :=
  w <- get_world ;;
  if negb (env_window env w) then throw (new_Error msg_browser_only)
  else if negb (env_ethereum env w) then throw (new_Error msg_no_metamask)
  else try_catch connect_try connect_catch.

(** *** The other methods *)

Definition is_null {A} (x : option A) : bool :=
  match x with
  | Some _ => false
  | None => true
  end.

(** [this.contract.<prop>] and [this.signer.<prop>] *)
Definition this_contract (prop : string) : M Contract :=
  x <- get_this ;;
  match contract x with
  | Some c => ret c
  | None => throw (TypeError_reading "null" prop)
  end.

Definition this_signer (prop : string) : M JsonRpcSigner :=
  x <- get_this ;;
  match signer x with
  | Some sg => ret sg
  | None => throw (TypeError_reading "null" prop)
  end.

(** The [catch (err)] of [getCounter] and of [getOwner]; they differ in
    the message of the error they create. *)
Definition read_catch {A} (replacement : string) (err : JsThrown) : M A :=
  match err with
  | JsError message _ =>
      if includes message "could not decode result data"
      then throw (new_Error replacement)
      else throw err
  | _ => throw err
  end.

Definition getCounter : M Z :=
  x <- get_this ;;
  if is_null (contract x) || is_null (provider x) then
    throw (new_Error msg_contract_not_connected)
  else
    try_catch
      (c <- this_contract "getCounter" ;;
       call (env_getCounter env c) (EvGetCounter c))
      (read_catch msg_counter_unreadable).

(** [const tx = await this.contract.<m>(); await tx.wait()] behind the
    guard on [this.contract]: the body the three mutating methods share. *)
Definition send_and_wait (m : SendMethod) (prop : string) : M unit :=
  x <- get_this ;;
  if is_null (contract x) then
    throw (new_Error msg_contract_not_connected)
  else
    c <- this_contract prop ;;
    tx <- call (env_send env m c) (EvSend c m) ;;
    call (env_wait env tx) (EvWait tx).

Definition incrementCounter : M unit := send_and_wait m_incrementCounter "incrementCounter".
Definition decrementCounter : M unit := send_and_wait m_decrementCounter "decrementCounter".
Definition resetCounter : M unit := send_and_wait m_resetCounter "resetCounter".

Definition getOwner : M string :=
  x <- get_this ;;
  if is_null (contract x) then
    throw (new_Error msg_contract_not_connected)
  else
    try_catch
      (c <- this_contract "owner" ;;
       call (env_owner env c) (EvOwner c))
      (read_catch msg_owner_unreadable).

Definition getWalletAddress : M string :=
  x <- get_this ;;
  if is_null (signer x) then
    throw (new_Error msg_wallet_not_connected)
  else
    sg <- this_signer "getAddress" ;;
    call (env_getAddress env sg) (EvGetAddress sg).

Definition getNetwork : M Network :=
  x <- get_this ;;
  if is_null (provider x) then
    throw (new_Error msg_provider_not_connected)
  else
    p <- this_provider "getNetwork" ;;
    provider_getNetwork p.

(** [return this.contract !== null] *)
Definition isConnected : M bool :=
  x <- get_this ;;
  ret (negb (is_null (contract x))).

(** *** Sequences of calls on the one service object *)

Inductive Op : Type :=
| op_connect
| op_getCounter
| op_incrementCounter
| op_decrementCounter
| op_resetCounter
| op_getOwner
| op_getWalletAddress
| op_getNetwork
| op_isConnected.

(** Whether a run returned, whatever it returned. *)
Definition returned {A} (r : result A) : bool :=
  match r with
  | Ok _ => true
  | Throw _ => false
  end.

Definition forget {A} (m : M A) (s : State W) : bool * State W :=
  match m s with
  | (r, s', _) => (returned r, s')
  end.

Definition run_op (o : Op) : State W -> bool * State W :=
  match o with
  | op_connect => forget connect
  | op_getCounter => forget getCounter
  | op_incrementCounter => forget incrementCounter
  | op_decrementCounter => forget decrementCounter
  | op_resetCounter => forget resetCounter
  | op_getOwner => forget getOwner
  | op_getWalletAddress => forget getWalletAddress
  | op_getNetwork => forget getNetwork
  | op_isConnected => forget isConnected
  end.

(** The calls of a page, one after the other: the final state and, for
    each call, whether it returned. *)
Fixpoint run_ops (os : list Op) (s : State W) : list (Op * bool) * State W :=
  match os with
  | [] => ([], s)
  | o :: rest =>
      match run_op o s with
      | (b, s1) =>
          match run_ops rest s1 with
          | (log, s2) => ((o, b) :: log, s2)
          end
      end
  end.

End Service.

Arguments ret {W A} a.
Arguments throw {W A} e.

(** ** A scripted environment

    A page whose wallet and chain answer from a list, one reply per call,
    whatever the call.  It gives the general theorems concrete runs. *)
Module Scripted.

Inductive Reply : Type :=
| r_void
| r_string (s : string)
| r_network (n : Network)
| r_bigint (z : Z)
| r_tx (tx : ContractTransactionResponse)
| r_throw (e : JsThrown).

Record Page : Type :=
  { has_window : bool; has_ethereum : bool; replies : list Reply }.

(** A call the script has no fitting reply for rejects with a plain object. *)
Definition off_script : JsThrown := JsObject None.

Definition next {A} (decode : Reply -> option A) (w : Page) : result A * Page :=
  match replies w with
  | [] => (Throw off_script, w)
  | r :: rest =>
      let w' := {| has_window := has_window w; has_ethereum := has_ethereum w;
                   replies := rest |} in
      match r with
      | r_throw e => (Throw e, w')
      | _ =>
          match decode r with
          | Some a => (Ok a, w')
          | None => (Throw off_script, w')
          end
      end
  end.

Definition as_void (r : Reply) : option unit :=
  match r with r_void => Some tt | _ => None end.
Definition as_string (r : Reply) : option string :=
  match r with r_string s => Some s | _ => None end.
Definition as_network (r : Reply) : option Network :=
  match r with r_network n => Some n | _ => None end.
Definition as_bigint (r : Reply) : option Z :=
  match r with r_bigint z => Some z | _ => None end.
Definition as_tx (r : Reply) : option ContractTransactionResponse :=
  match r with r_tx tx => Some tx | _ => None end.

Definition env : Env Page :=
  {| env_window := has_window;
     env_ethereum := has_ethereum;
     env_request := fun _ => next as_void;
     env_getSigner := fun _ => next as_string;
     env_getNetwork := fun _ => next as_network;
     env_getCode := fun _ _ => next as_string;
     env_getCounter := fun _ => next as_bigint;
     env_owner := fun _ => next as_string;
     env_send := fun _ _ => next as_tx;
     env_wait := fun _ => next as_void;
     env_getAddress := fun _ => next as_string |}.

(** A browser page with an injected wallet and the given script. *)
Definition page (rs : list Reply) : Page :=
  {| has_window := true; has_ethereum := true; replies := rs |}.

Definition start (x : Session) (rs : list Reply) : State Page :=
  {| this := x; world := page rs; heap_next := 0 |}.

Definition address : string := "0x5FbDB2315678afecb367f032d93F642f64180aa3".
Definition account : string := "0xf39Fd6e51aad88F6F4ce6aB8827279cffFb92266".

Definition mainnet : Network := {| name := "mainnet"; chainId := 1 |}.
Definition sepolia : Network := {| name := "sepolia"; chainId := 11155111 |}.

End Scripted.

(** ** Vocabulary of the statements *)

(** The value an interaction threw, if it threw. *)
Definition failure (ev : Event) : option JsThrown :=
  match ev with
  | EvRequest _ (Throw e)
  | EvGetSigner _ (Throw e)
  | EvGetNetwork _ (Throw e)
  | EvGetCode _ _ (Throw e)
  | EvGetCounter _ (Throw e)
  | EvOwner _ (Throw e)
  | EvSend _ _ (Throw e)
  | EvWait _ (Throw e)
  | EvGetAddress _ (Throw e) => Some e
  | _ => None
  end.

(** [wallet_switchEthereumChain] and [wallet_addEthereumChain] requests. *)
Definition is_chain_request (ev : Event) : bool :=
  match ev with
  | EvRequest (wallet_switchEthereumChain _) _ => true
  | EvRequest (wallet_addEthereumChain _) _ => true
  | _ => false
  end.

Definition is_getNetwork (ev : Event) : bool :=
  match ev with
  | EvGetNetwork _ _ => true
  | _ => false
  end.

Definition is_new_provider (ev : Event) : bool :=
  match ev with
  | EvNewProvider _ => true
  | _ => false
  end.

(** The test of the inner handler, [switchError.code === 4902], on a value
    whose [code] can be read. *)
Definition has_code_4902 (e : JsThrown) : bool :=
  match property_code e with
  | Ok code => strict_equals code 4902
  | Throw _ => false
  end.

(** A switch request that failed with code 4902: the failure the inner
    handler answers with the add-chain request. *)
Definition is_unknown_chain_failure (ev : Event) : bool :=
  match ev with
  | EvRequest (wallet_switchEthereumChain _) (Throw e) => has_code_4902 e
  | _ => false
  end.

(** [err instanceof Error && err.message.includes(needle)] *)
Definition is_Error_including (needle : string) (e : JsThrown) : bool :=
  match e with
  | JsError message _ => includes message needle
  | _ => false
  end.

(** What the caller of [connect] gets when the [try] block ends with [r]:
    the outer handler neither touches the state nor calls anything. *)
Definition after_outer_catch (r : result unit) : result unit :=
  match r with
  | Ok _ => Ok tt
  | Throw (JsError message code) =>
      if includes message "already pending" then Ok tt
      else Throw (JsError message code)
  | Throw _ => Throw (new_Error msg_connect_failed)
  end.

(** ** Further vocabulary *)

Definition is_switch_request (ev : Event) : bool :=
  match ev with
  | EvRequest (wallet_switchEthereumChain _) _ => true
  | _ => false
  end.

Definition is_add_request (ev : Event) : bool :=
  match ev with
  | EvRequest (wallet_addEthereumChain _) _ => true
  | _ => false
  end.

Definition is_accounts_request (ev : Event) : bool :=
  match ev with
  | EvRequest eth_requestAccounts _ => true
  | _ => false
  end.

Definition is_new_contract (ev : Event) : bool :=
  match ev with
  | EvNewContract _ => true
  | _ => false
  end.

(** The state after a call that changed the world and nothing else. *)
Definition with_world {W : Type} (s : State W) (w : W) : State W :=
  {| this := this s; world := w; heap_next := heap_next s |}.

(** What holds of the fields of a service object however it was used: a
    signer handle is never there without a provider handle, nor a contract
    handle without the other two. *)
Definition handles_nested (x : Session) : Prop :=
  (signer x <> None -> provider x <> None) /\
  (contract x <> None -> provider x <> None /\ signer x <> None).

(** The public method behind each state-changing member. *)
Definition mutating_method {W : Type} (env : Env W) (m : SendMethod) : M W unit :=
  match m with
  | m_incrementCounter => incrementCounter env
  | m_decrementCounter => decrementCounter env
  | m_resetCounter => resetCounter env
  end.

(** The interactions [connect] can have. *)
Definition is_connect_event (ev : Event) : bool :=
  match ev with
  | EvRequest _ _ | EvNewProvider _ | EvGetSigner _ _ | EvGetNetwork _ _
  | EvGetCode _ _ _ | EvNewContract _ => true
  | _ => false
  end.

(** ** What a trace says was derived and read last *)

(** The provider handle built last in a trace, and the signer derived last. *)
Fixpoint last_new_provider (t : list Event) : option BrowserProvider :=
  match t with
  | [] => None
  | ev :: rest =>
      match last_new_provider rest with
      | Some p => Some p
      | None =>
          match ev with
          | EvNewProvider p => Some p
          | _ => None
          end
      end
  end.

Fixpoint last_signer (t : list Event) : option JsonRpcSigner :=
  match t with
  | [] => None
  | ev :: rest =>
      match last_signer rest with
      | Some sg => Some sg
      | None =>
          match ev with
          | EvGetSigner _ (Ok sg) => Some sg
          | _ => None
          end
      end
  end.

(** A contract read of the counter that threw. *)
Definition is_counter_failure (ev : Event) : bool :=
  match ev with
  | EvGetCounter _ (Throw _) => true
  | _ => false
  end.

(** The values the reads of a trace returned last. *)
Fixpoint last_counter_value (t : list Event) : option Z :=
  match t with
  | [] => None
  | ev :: rest =>
      match last_counter_value rest with
      | Some v => Some v
      | None =>
          match ev with
          | EvGetCounter _ (Ok v) => Some v
          | _ => None
          end
      end
  end.

Fixpoint last_network (t : list Event) : option Network :=
  match t with
  | [] => None
  | ev :: rest =>
      match last_network rest with
      | Some n => Some n
      | None =>
          match ev with
          | EvGetNetwork _ (Ok n) => Some n
          | _ => None
          end
      end
  end.

Fixpoint last_owner (t : list Event) : option string :=
  match t with
  | [] => None
  | ev :: rest =>
      match last_owner rest with
      | Some o => Some o
      | None =>
          match ev with
          | EvOwner _ (Ok o) => Some o
          | _ => None
          end
      end
  end.

Fixpoint last_address (t : list Event) : option string :=
  match t with
  | [] => None
  | ev :: rest =>
      match last_address rest with
      | Some a => Some a
      | None =>
          match ev with
          | EvGetAddress _ (Ok a) => Some a
          | _ => None
          end
      end
  end.

(** [failed_connects env a s t s']: [t] is the trace of some calls of
    [connect] made one after the other on the service, from state [s] to
    state [s'], each of which raised; nothing else is in [t] and nothing
    else changed the service. *)
Inductive failed_connects {W : Type} (env : Env W) (address : string) :
    State W -> list Event -> State W -> Prop :=
| failed_none (s : State W) : failed_connects env address s [] s
| failed_more (s s1 s2 : State W) (e : JsThrown) (t1 t2 : list Event) :
    connect env address s = (Throw e, s1, t1) ->
    failed_connects env address s1 t2 s2 ->
    failed_connects env address s (t1 ++ t2)%list s2.

(** The reads the loaders of the page make. *)
Definition is_counter_read (ev : Event) : bool :=
  match ev with
  | EvGetCounter _ _ => true
  | _ => false
  end.

Definition is_owner_read (ev : Event) : bool :=
  match ev with
  | EvOwner _ _ => true
  | _ => false
  end.

Definition is_address_read (ev : Event) : bool :=
  match ev with
  | EvGetAddress _ _ => true
  | _ => false
  end.

(** What the [catch] of [getCounter] and [getOwner] throws for [err]. *)
Definition read_error (replacement : string) (err : JsThrown) : JsThrown :=
  if is_Error_including "could not decode result data" err
  then new_Error replacement
  else err.

(** ** The page: [src/components/CounterApp.tsx]

    The component keeps eight state variables and calls the one service
    object.  Its handlers only ever call the setters with values, never read
    the variables back, so a handler is modelled as a run over the record of
    the variables and the state of the service, each setter writing its
    field.  A handler runs from the click to its end without another one in
    between, which is what the [disabled={isLoading}] of the buttons aims
    at; the effect on [isConnected] is run when the handler that changed the
    flag has ended.  [console.log] and [console.error] are left out. *)
Module CounterApp.

(** The [useState] variables, with their initial values. *)
Record Ui : Type :=
  { ui_counter : Z;
    ui_isConnected : bool;
    ui_isLoading : bool;
    ui_error : option string;
    ui_owner : string;
    ui_walletAddress : string;
    ui_networkName : string;
    ui_networkChainId : Z }.

Definition initial_ui : Ui :=
  {| ui_counter := 0; ui_isConnected := false; ui_isLoading := false;
     ui_error := None; ui_owner := ""; ui_walletAddress := "";
     ui_networkName := ""; ui_networkChainId := 0 |}.

Record PageState (W : Type) : Type := { ui : Ui; service : State W }.

(** [err instanceof Error ? err.message : fallback] *)
Definition message_or (fallback : string) (err : JsThrown) : string :=
  match err with
  | JsError message _ => message
  | _ => fallback
  end.

(** The buttons of the page. *)
Inductive Click : Type :=
| click_connect
| click_increment
| click_decrement
| click_reset.

(** A button can be clicked when it is rendered and not disabled: the
    connect button is rendered while [isConnected] is false, the other
    three while it is true, and all are disabled while [isLoading]. *)
Definition clickable (u : Ui) (c : Click) : bool :=
  negb (ui_isLoading u) &&
  match c with
  | click_connect => negb (ui_isConnected u)
  | _ => ui_isConnected u
  end.

Section Page.

Variable W : Type.
Variable env : Env W.
Variable contractAddress : string.

(** A handler: a run over the page state that returns or throws and leaves
    the interactions of the service calls it made. *)
Definition H (A : Type) : Type :=
  PageState W -> result A * PageState W * list Event.

Definition hret {A} (a : A) : H A := fun ps => (Ok a, ps, []).

Definition hbind {A B} (m : H A) (k : A -> H B) : H B := fun ps =>
  match m ps with
  | (Ok a, ps1, t1) =>
      match k a ps1 with
      | (r, ps2, t2) => (r, ps2, (t1 ++ t2)%list)
      end
  | (Throw e, ps1, t1) => (Throw e, ps1, t1)
  end.

(** [try { m } catch (err) { h err }] *)
Definition htry_catch {A} (m : H A) (h : JsThrown -> H A) : H A := fun ps =>
  match m ps with
  | (Ok a, ps1, t1) => (Ok a, ps1, t1)
  | (Throw e, ps1, t1) =>
      match h e ps1 with
      | (r, ps2, t2) => (r, ps2, (t1 ++ t2)%list)
      end
  end.

(** [m finally { f }]: [f] runs however [m] ended, and the outcome is that
    of [m] unless [f] throws. *)
Definition hfinally {A} (m : H A) (f : H unit) : H A := fun ps =>
  match m ps with
  | (r, ps1, t1) =>
      match f ps1 with
      | (Ok _, ps2, t2) => (r, ps2, (t1 ++ t2)%list)
      | (Throw e, ps2, t2) => (Throw e, ps2, (t1 ++ t2)%list)
      end
  end.

Notation "x <- m ;; k" := (hbind m (fun x => k))
  (at level 61, m at next level, right associativity).
Notation "m ;;; k" := (hbind m (fun _ => k))
  (at level 61, right associativity).

(** [await counterService.<method>()] *)
Definition await {A} (m : M W A) : H A := fun ps =>
  match m (service ps) with
  | (r, s, t) => (r, {| ui := ui ps; service := s |}, t)
  end.

Definition get_ui : H Ui := fun ps => (Ok (ui ps), ps, []).

Definition set_ui (f : Ui -> Ui) : H unit := fun ps =>
  (Ok tt, {| ui := f (ui ps); service := service ps |}, []).

(** The setters. *)
Definition setCounter (v : Z) : H unit :=
  set_ui (fun u =>
    {| ui_counter := v; ui_isConnected := ui_isConnected u;
       ui_isLoading := ui_isLoading u; ui_error := ui_error u;
       ui_owner := ui_owner u; ui_walletAddress := ui_walletAddress u;
       ui_networkName := ui_networkName u;
       ui_networkChainId := ui_networkChainId u |}).

Definition setIsConnected (v : bool) : H unit :=
  set_ui (fun u =>
    {| ui_counter := ui_counter u; ui_isConnected := v;
       ui_isLoading := ui_isLoading u; ui_error := ui_error u;
       ui_owner := ui_owner u; ui_walletAddress := ui_walletAddress u;
       ui_networkName := ui_networkName u;
       ui_networkChainId := ui_networkChainId u |}).

Definition setIsLoading (v : bool) : H unit :=
  set_ui (fun u =>
    {| ui_counter := ui_counter u; ui_isConnected := ui_isConnected u;
       ui_isLoading := v; ui_error := ui_error u;
       ui_owner := ui_owner u; ui_walletAddress := ui_walletAddress u;
       ui_networkName := ui_networkName u;
       ui_networkChainId := ui_networkChainId u |}).

Definition setError (v : option string) : H unit :=
  set_ui (fun u =>
    {| ui_counter := ui_counter u; ui_isConnected := ui_isConnected u;
       ui_isLoading := ui_isLoading u; ui_error := v;
       ui_owner := ui_owner u; ui_walletAddress := ui_walletAddress u;
       ui_networkName := ui_networkName u;
       ui_networkChainId := ui_networkChainId u |}).

Definition setOwner (v : string) : H unit :=
  set_ui (fun u =>
    {| ui_counter := ui_counter u; ui_isConnected := ui_isConnected u;
       ui_isLoading := ui_isLoading u; ui_error := ui_error u;
       ui_owner := v; ui_walletAddress := ui_walletAddress u;
       ui_networkName := ui_networkName u;
       ui_networkChainId := ui_networkChainId u |}).

Definition setWalletAddress (v : string) : H unit :=
  set_ui (fun u =>
    {| ui_counter := ui_counter u; ui_isConnected := ui_isConnected u;
       ui_isLoading := ui_isLoading u; ui_error := ui_error u;
       ui_owner := ui_owner u; ui_walletAddress := v;
       ui_networkName := ui_networkName u;
       ui_networkChainId := ui_networkChainId u |}).

Definition setNetworkName (v : string) : H unit :=
  set_ui (fun u =>
    {| ui_counter := ui_counter u; ui_isConnected := ui_isConnected u;
       ui_isLoading := ui_isLoading u; ui_error := ui_error u;
       ui_owner := ui_owner u; ui_walletAddress := ui_walletAddress u;
       ui_networkName := v;
       ui_networkChainId := ui_networkChainId u |}).

Definition setNetworkChainId (v : Z) : H unit :=
  set_ui (fun u =>
    {| ui_counter := ui_counter u; ui_isConnected := ui_isConnected u;
       ui_isLoading := ui_isLoading u; ui_error := ui_error u;
       ui_owner := ui_owner u; ui_walletAddress := ui_walletAddress u;
       ui_networkName := ui_networkName u;
       ui_networkChainId := v |}).

(** The loaders, lines 39 to 78: each catches whatever its read throws. *)
Definition loadCounter : H unit :=
  htry_catch
    (currentCounter <- await (getCounter env) ;;
     setCounter currentCounter)
    (fun err =>
       setError (Some (message_or "카운터 값을 불러오는데 실패했습니다." err))).

Definition loadOwner : H unit :=
  htry_catch
    (contractOwner <- await (getOwner env) ;;
     setOwner contractOwner)
    (fun _ => hret tt).

Definition loadWalletAddress : H unit :=
  htry_catch
    (address <- await (getWalletAddress env) ;;
     setWalletAddress address)
    (fun _ => hret tt).

Definition loadNetwork : H unit :=
  htry_catch
    (network <- await (getNetwork env) ;;
     setNetworkName (name network) ;;;
     setNetworkChainId (chainId network))
    (fun _ => hret tt).

(** [connectWallet], lines 16 to 37. *)
Definition connectWallet : H unit :=
  hfinally
    (htry_catch
       (setError None ;;;
        setIsLoading true ;;;
        await (connect env contractAddress) ;;;
        setIsConnected true ;;;
        loadNetwork ;;;
        loadCounter ;;;
        loadOwner ;;;
        loadWalletAddress)
       (fun err =>
          setError (Some (message_or "지갑 연결에 실패했습니다." err)) ;;;
          setIsLoading false))
    (setIsLoading false).

(** The body the three handlers of lines 80 to 123 share; they differ in
    the service method and in the fallback text. *)
Definition submit (m : SendMethod) (fallback : string) : H unit :=
  hfinally
    (htry_catch
       (setError None ;;;
        setIsLoading true ;;;
        await (mutating_method env m) ;;;
        loadCounter)
       (fun err => setError (Some (message_or fallback err))))
    (setIsLoading false).

Definition incrementCounter : H unit :=
  submit m_incrementCounter "카운터 증가에 실패했습니다.".
Definition decrementCounter : H unit :=
  submit m_decrementCounter "카운터 감소에 실패했습니다.".
Definition resetCounter : H unit :=
  submit m_resetCounter "카운터 리셋에 실패했습니다.".

(** The body of the effect of lines 125 to 129. *)
Definition effect_isConnected : H unit :=
  u <- get_ui ;;
  if ui_isConnected u then loadCounter else hret tt.

(** When the [loadCounter] started by the effect ends, among the steps of
    [connectWallet] that follow [setIsConnected(true)].  The effect is
    started by React while the handler waits for its first loader, and its
    read is answered whenever the chain answers it. *)
Inductive EffectEnd : Type :=
| effect_before_loadNetwork
| effect_before_loadCounter
| effect_before_loadOwner
| effect_before_loadWalletAddress
| effect_before_finally
| effect_after_handler.

Definition EffectEnd_eqb (a b : EffectEnd) : bool :=
  match a, b with
  | effect_before_loadNetwork, effect_before_loadNetwork
  | effect_before_loadCounter, effect_before_loadCounter
  | effect_before_loadOwner, effect_before_loadOwner
  | effect_before_loadWalletAddress, effect_before_loadWalletAddress
  | effect_before_finally, effect_before_finally
  | effect_after_handler, effect_after_handler => true
  | _, _ => false
  end.

(** The effect at the point [here] of the handler, if it fires in this run
    and [here] is where it ends. *)
Definition effect_if (fires : bool) (ends here : EffectEnd) : H unit :=
  if fires && EffectEnd_eqb ends here then effect_isConnected else hret tt.

(** [connectWallet] as the page runs it: when [isConnected] was false and
    the handler sets it, the effect of lines 125 to 129 fires once, and its
    [loadCounter] ends at [ends].  The effect runs on its own and catches
    what its read throws, so it never reaches the [catch] of the handler. *)
Definition connectWallet_on_page (ends : EffectEnd) : H unit :=
  u0 <- get_ui ;;
  let fires := negb (ui_isConnected u0) in
  hfinally
    (htry_catch
       (setError None ;;;
        setIsLoading true ;;;
        await (connect env contractAddress) ;;;
        setIsConnected true ;;;
        effect_if fires ends effect_before_loadNetwork ;;;
        loadNetwork ;;;
        effect_if fires ends effect_before_loadCounter ;;;
        loadCounter ;;;
        effect_if fires ends effect_before_loadOwner ;;;
        loadOwner ;;;
        effect_if fires ends effect_before_loadWalletAddress ;;;
        loadWalletAddress ;;;
        effect_if fires ends effect_before_finally)
       (fun err =>
          setError (Some (message_or "지갑 연결에 실패했습니다." err)) ;;;
          setIsLoading false))
    (setIsLoading false) ;;;
  effect_if fires ends effect_after_handler.

Definition onClick (c : Click) : H unit :=
  match c with
  | click_connect => connectWallet
  | click_increment => incrementCounter
  | click_decrement => decrementCounter
  | click_reset => resetCounter
  end.

(** One click: nothing happens on a button that cannot be clicked;
    otherwise its handler runs, and then the effect if the handler changed
    [isConnected].  Here the load of the effect ends after the handler;
    [connectWallet_on_page] gives the other points at which it can end. *)
Definition click (c : Click) (ps : PageState W) : PageState W * list Event :=
  if clickable (ui ps) c then
    match onClick c ps with
    | (_, ps1, t1) =>
        if Bool.eqb (ui_isConnected (ui ps1)) (ui_isConnected (ui ps)) then (ps1, t1)
        else
          match effect_isConnected ps1 with
          | (_, ps2, t2) => (ps2, (t1 ++ t2)%list)
          end
    end
  else (ps, []).

Fixpoint clicks (cs : list Click) (ps : PageState W) : PageState W * list Event :=
  match cs with
  | [] => (ps, [])
  | c :: rest =>
      match click c ps with
      | (ps1, t1) =>
          match clicks rest ps1 with
          | (ps2, t2) => (ps2, (t1 ++ t2)%list)
          end
      end
  end.

End Page.

End CounterApp.

(** The page as it is mounted on a scripted wallet. *)
Definition mounted (rs : list Scripted.Reply) : CounterApp.PageState Scripted.Page :=
  {| CounterApp.ui := CounterApp.initial_ui;
     CounterApp.service := Scripted.start new_CounterContractService rs |}.

(** ** Scenarios

    Scripts and sessions for the concrete runs of the verification. *)

(** A fresh session, a wallet that grants the accounts and a node that then
    fails to name its network. *)
Definition unreachable_node : list Scripted.Reply :=
  [Scripted.r_void; Scripted.r_string Scripted.account;
   Scripted.r_throw (JsError "network unreachable" None)].

(** A wallet that still has an authorization prompt open. *)
Definition pending_prompt : list Scripted.Reply :=
  [Scripted.r_throw
     (JsError "Request of type 'wallet_requestPermissions' already pending for origin http://localhost:3000. Please wait."
        (Some (-32002)))].

(** A wallet on Sepolia and a contract with code at the address. *)
Definition on_sepolia : list Scripted.Reply :=
  [Scripted.r_void; Scripted.r_string Scripted.account;
   Scripted.r_network Scripted.sepolia; Scripted.r_string "0x6080604052"].

(** A wallet on another chain that does not know Sepolia and says so with an
    [Error] that mentions a pending request; the user then declines the
    request to add the chain. *)
Definition unknown_chain_then_declined : list Scripted.Reply :=
  [Scripted.r_void; Scripted.r_string Scripted.account;
   Scripted.r_network Scripted.mainnet;
   Scripted.r_throw
     (JsError "Unrecognized chain ID 0xaa36a7: a request to add it is already pending"
        (Some 4902));
   Scripted.r_throw (JsError "User rejected the request." (Some 4001))].

(** A wallet on another chain in which a switch prompt is still open. *)
Definition switch_still_pending : list Scripted.Reply :=
  [Scripted.r_void; Scripted.r_string Scripted.account;
   Scripted.r_network Scripted.mainnet;
   Scripted.r_throw
     (JsError "Request of type 'wallet_switchEthereumChain' already pending for origin http://localhost:3000. Please wait."
        (Some (-32002)))].

(** A wallet on another chain that accepts the switch request. *)
Definition switch_accepted : list Scripted.Reply :=
  [Scripted.r_void; Scripted.r_string Scripted.account;
   Scripted.r_network Scripted.mainnet;
   Scripted.r_void;
   Scripted.r_string Scripted.account;
   Scripted.r_network Scripted.sepolia;
   Scripted.r_string "0x6080604052"].

(** A wallet that resolves the switch request and stays where it was. *)
Definition switch_not_honoured : list Scripted.Reply :=
  [Scripted.r_void; Scripted.r_string Scripted.account;
   Scripted.r_network Scripted.mainnet;
   Scripted.r_void;
   Scripted.r_string Scripted.account;
   Scripted.r_network Scripted.mainnet;
   Scripted.r_string "0x6080604052"].

(** A session as a successful [connect] leaves it, and one with a contract
    handle and nothing else. *)
Definition wallet_provider : BrowserProvider := {| provider_id := 0 |}.

Definition wallet_signer : JsonRpcSigner :=
  {| signer_id := 1; signer_provider := wallet_provider;
     signer_address := Scripted.account |}.

Definition counter_contract : Contract :=
  {| contract_id := 2; target := Scripted.address; runner := Some wallet_signer |}.

Definition connected_session : Session :=
  {| contract := Some counter_contract; provider := Some wallet_provider;
     signer := Some wallet_signer |}.

Definition contract_only_session : Session :=
  {| contract := Some counter_contract; provider := None; signer := None |}.

(** What ethers throws when the answer of a call cannot be decoded. *)
Definition bad_data : JsThrown :=
  JsError "could not decode result data (value=0x, info={ method: getCounter }, code=BAD_DATA, version=6.13.0)"
    None.

(** A wallet on another chain that accepts the switch to Sepolia, where
    there is no code at the address. *)
Definition switch_then_no_code : list Scripted.Reply :=
  [Scripted.r_void; Scripted.r_string Scripted.account;
   Scripted.r_network Scripted.mainnet;
   Scripted.r_void;
   Scripted.r_string Scripted.account;
   Scripted.r_network Scripted.sepolia;
   Scripted.r_string "0x"].

(** A transaction that is submitted and included, and the counter read
    after it. *)
Definition included_then_read : list Scripted.Reply :=
  [Scripted.r_tx {| hash := "0x9fc7" |}; Scripted.r_void; Scripted.r_bigint 8].

(** A wallet on Sepolia with the contract deployed, and the four loads of
    the page answered. *)
Definition on_sepolia_with_loads : list Scripted.Reply :=
  [Scripted.r_void; Scripted.r_string Scripted.account;
   Scripted.r_network Scripted.sepolia; Scripted.r_string "0x6080604052";
   Scripted.r_network Scripted.sepolia; Scripted.r_bigint 7;
   Scripted.r_throw (JsError "missing revert data" None);
   Scripted.r_string Scripted.account].

(** The page showing the counter, over a given session and script. *)
Definition page_showing_counter (x : Session) (rs : list Scripted.Reply) :
    CounterApp.PageState Scripted.Page :=
  {| CounterApp.ui :=
       {| CounterApp.ui_counter := 7; CounterApp.ui_isConnected := true;
          CounterApp.ui_isLoading := false; CounterApp.ui_error := None;
          CounterApp.ui_owner := ""; CounterApp.ui_walletAddress := "";
          CounterApp.ui_networkName := ""; CounterApp.ui_networkChainId := 0 |};
     CounterApp.service := Scripted.start x rs |}.

(** * Verification *)

#[local] Arguments not_deployed_message : simpl never.
#[local] Arguments includes : simpl never.
#[local] Arguments String.eqb : simpl never.
#[local] Arguments Z.eqb : simpl never.
#[local] Arguments strict_equals : simpl never.
#[local] Arguments TypeError_reading : simpl never.
#[local] Arguments new_Error : simpl never.
#[local] Arguments SEPOLIA_CHAIN_ID : simpl never.
#[local] Arguments SEPOLIA_CHAIN_ID_DECIMAL : simpl never.
#[local] Arguments sepolia_parameter : simpl never.

#[local] Arguments has_code_4902 : simpl never.

(** Symbolic execution: unfold the monad, then split on what the
    environment answers and on the tests of the code. *)
Ltac unfold_monad :=
  unfold new_BrowserProvider, new_Contract, provider_getSigner, provider_getNetwork,
    provider_getCode, request, this_provider, this_contract, this_signer,
    set_provider, set_signer, set_contract, call, get_this, get_world, set_this,
    fresh_id, emit, try_catch, bind, ret, throw, Number; cbn.

Ltac unfold_monad_in H :=
  unfold new_BrowserProvider, new_Contract, provider_getSigner, provider_getNetwork,
    provider_getCode, request, this_provider, this_contract, this_signer,
    set_provider, set_signer, set_contract, call, get_this, get_world, set_this,
    fresh_id, emit, try_catch, bind, ret, throw, Number in H; cbn in H.

Ltac step_env_in H :=
  match type of H with
  | context [env_request ?e ?r ?w] =>
      destruct (env_request e r w) as [[[]|?] ?] eqn:?
  | context [env_getSigner ?e ?p ?w] =>
      destruct (env_getSigner e p w) as [[?|?] ?] eqn:?
  | context [env_getNetwork ?e ?p ?w] =>
      destruct (env_getNetwork e p w) as [[?|?] ?] eqn:?
  | context [env_getCode ?e ?p ?a ?w] =>
      destruct (env_getCode e p a w) as [[?|?] ?] eqn:?
  | context [Z.eqb ?a ?b] => destruct (Z.eqb a b) eqn:?
  | context [String.eqb ?a ?b] => destruct (String.eqb a b) eqn:?
  | context [property_code ?x] => destruct x as [? ?|?| |]
  | context [strict_equals ?a ?b] => destruct (strict_equals a b) eqn:?
  end; cbn in H.

(** Every path through the [try] block of [connect], from a hypothesis
    [H : connect_try env a s = (r, s', t)]. *)
Ltac connect_try_paths H :=
  unfold connect_try, switch_catch in H; unfold_monad_in H;
  repeat step_env_in H; inversion H; subst; clear H; cbn in *.

Section ConnectFacts.

Variable W : Type.
Variable env : Env W.
Variable contractAddress : string.

Lemma connect_catch_run (e : JsThrown) (s : State W) :
  connect_catch e s = (after_outer_catch (Throw e), s, []).
Proof.
  destruct e as [m c| | |]; cbn; try reflexivity.
  destruct (includes m "already pending"); reflexivity.
Qed.

(** [connect] is its two guards, then the [try] block, then the verdict
    of the outer handler on how the block ended. *)
Lemma connect_run (s : State W) :
  connect env contractAddress s =
  if negb (env_window env (world s)) then (Throw (new_Error msg_browser_only), s, [])
  else if negb (env_ethereum env (world s)) then (Throw (new_Error msg_no_metamask), s, [])
  else match connect_try env contractAddress s with
       | (r, s', t) => (after_outer_catch r, s', t)
       end.
Proof.
  unfold connect, bind, get_world, try_catch, throw.
  destruct (negb (env_window env (world s))); [reflexivity|].
  destruct (negb (env_ethereum env (world s))); [reflexivity|].
  destruct (connect_try env contractAddress s) as [[[[]|e] s1] t1]; [reflexivity|].
  rewrite connect_catch_run, app_nil_r. reflexivity.
Qed.

(** A run of [connect] is either stopped by a guard, or a run of the
    [try] block. *)
Lemma connect_inv (s s' : State W) (r : result unit) (t : list Event) :
  connect env contractAddress s = (r, s', t) ->
  (s' = s /\ t = [] /\
   (r = Throw (new_Error msg_browser_only) \/ r = Throw (new_Error msg_no_metamask)))
  \/ exists r0, connect_try env contractAddress s = (r0, s', t) /\ r = after_outer_catch r0.
Proof.
  rewrite connect_run.
  destruct (negb (env_window env (world s))).
  { intro H; inversion H; subst; left; auto. }
  destruct (negb (env_ethereum env (world s))).
  { intro H; inversion H; subst; left; auto. }
  destruct (connect_try env contractAddress s) as [[r0 s1] t1].
  intro H; inversion H; subst. right. exists r0. auto.
Qed.

Lemma after_outer_catch_throw (r : result unit) (e : JsThrown) :
  after_outer_catch r = Throw e -> exists e0, r = Throw e0.
Proof. destruct r as [|e0]; [discriminate|eauto]. Qed.

(** What the [try] block does to the session: on a throw the contract
    handle is untouched, and so are the other two handles when no provider
    handle was derived; on a return the contract handle is the one just
    built, bound to the signer of the session. *)
Lemma connect_try_session (s s' : State W) (r : result unit) (t : list Event) :
  connect_try env contractAddress s = (r, s', t) ->
  match r with
  | Throw _ =>
      contract (this s') = contract (this s) /\
      ((forall ev, In ev t -> is_new_provider ev = false) -> this s' = this s)
  | Ok _ =>
      exists c, contract (this s') = Some c /\ In (EvNewContract c) t /\
                target c = contractAddress /\ runner c = signer (this s')
  end.
Proof.
  intro H. destruct s as [x w n]. connect_try_paths H.
  all: try (split; [reflexivity|]; intro Hn).
  all: try (destruct x; reflexivity).
  all: try (exfalso;
            match goal with
            | Hn : forall ev, _ -> is_new_provider ev = false |- _ =>
                specialize (Hn (EvNewProvider {| provider_id := n |}));
                cbn in Hn; discriminate Hn; auto
            end).
  all: eexists; repeat split; cbn; auto 20.
Qed.

End ConnectFacts.

(** ** What a failed connect leaves behind *)

Section Failure.

Variable W : Type.
Variable env : Env W.
Variable contractAddress : string.

Lemma connect_try_handles_left (s s' : State W) (r : result unit) (t : list Event) :
  connect_try env contractAddress s = (r, s', t) ->
  provider (this s') =
    match last_new_provider t with
    | Some p => Some p
    | None => provider (this s)
    end /\
  signer (this s') =
    match last_signer t with
    | Some sg => Some sg
    | None => signer (this s)
    end.
Proof.
  intro H. destruct s as [x w n]. connect_try_paths H.
  all: split; reflexivity.
Qed.

(** C1, as the code has it: when [connect] throws, the contract handle is
    exactly what it was before the call, and the provider and signer
    handles are untouched as long as the attempt stopped before a provider
    handle was derived.  Nothing restores the two handles after that: the
    provider handle left in the session is the one built last in the
    attempt, and the signer handle the one derived last. *)
Theorem connect_failure_keeps_contract
    (s s' : State W) (e : JsThrown) (t : list Event) :
  connect env contractAddress s = (Throw e, s', t) ->
  contract (this s') = contract (this s) /\
  ((forall ev, In ev t -> is_new_provider ev = false) -> this s' = this s) /\
  provider (this s') =
    match last_new_provider t with
    | Some p => Some p
    | None => provider (this s)
    end /\
  signer (this s') =
    match last_signer t with
    | Some sg => Some sg
    | None => signer (this s)
    end.
Proof.
  intro H. apply connect_inv in H.
  destruct H as [(-> & -> & _) | (r0 & Hrun & Hr)]; [cbn; auto|].
  symmetry in Hr. apply after_outer_catch_throw in Hr. destruct Hr as [e0 ->].
  pose proof Hrun as Hleft. apply connect_try_handles_left in Hleft.
  apply connect_try_session in Hrun.
  destruct Hrun as [Hc Hn]. destruct Hleft as [Hp Hs]. auto.
Qed.

End Failure.

(** C1 does not hold as stated: the attempt fails, the failure reaches the
    caller, and the session that had no handle now has a provider handle and
    a signer handle. *)
Lemma connect_failure_leaves_handles :
  match connect Scripted.env Scripted.address
          (Scripted.start new_CounterContractService unreachable_node) with
  | (r, s', _) =>
      r = Throw (JsError "network unreachable" None) /\
      provider new_CounterContractService = None /\
      signer new_CounterContractService = None /\
      provider (this s') = Some {| provider_id := 0 |} /\
      signer (this s') =
        Some {| signer_id := 1; signer_provider := {| provider_id := 0 |};
                signer_address := Scripted.account |} /\
      contract (this s') = None
  end.
Proof. vm_compute. repeat split; reflexivity. Qed.

Lemma connect_failure_keeps_contract_witness :
  let s := Scripted.start new_CounterContractService unreachable_node in
  let run := connect Scripted.env Scripted.address s in
  contract (this (snd (fst run))) = contract (this s) /\
  ((forall ev, In ev (snd run) -> is_new_provider ev = false) ->
   this (snd (fst run)) = this s) /\
  provider (this (snd (fst run))) =
    match last_new_provider (snd run) with
    | Some p => Some p
    | None => provider (this s)
    end /\
  signer (this (snd (fst run))) =
    match last_signer (snd run) with
    | Some sg => Some sg
    | None => signer (this s)
    end.
Proof.
  intros s run.
  apply (@connect_failure_keeps_contract _ Scripted.env Scripted.address
           s (snd (fst run)) (JsError "network unreachable" None) (snd run)).
  vm_compute. reflexivity.
Defined.

(** ** isConnected over the life of the page *)

Lemma Op_eq_connect (o : Op) : o = op_connect \/ o <> op_connect.
Proof. destruct o; (left; reflexivity) || (right; discriminate). Qed.

Section Lifetime.

Variable W : Type.
Variable env : Env W.
Variable contractAddress : string.

Lemma isConnected_run (s : State W) :
  isConnected s = (Ok (negb (is_null (contract (this s)))), s, []).
Proof. reflexivity. Qed.

(** [connect] either leaves the contract handle alone or returns with a
    handle it has just built. *)
Lemma connect_contract (s s' : State W) (r : result unit) (t : list Event) :
  connect env contractAddress s = (r, s', t) ->
  contract (this s') = contract (this s) \/
  (r = Ok tt /\ connect_try env contractAddress s = (Ok tt, s', t) /\
   exists c, contract (this s') = Some c).
Proof.
  intro H. apply connect_inv in H.
  destruct H as [(-> & -> & _) | (r0 & Hrun & ->)]; [auto|].
  pose proof Hrun as Hs. apply connect_try_session in Hs.
  destruct r0 as [[]|e0].
  - right. destruct Hs as (c & Hc & _). eauto.
  - left. apply Hs.
Qed.

(** Only [connect] writes the fields of the service. *)
Lemma run_op_session (o : Op) (s s' : State W) (b : bool) :
  o <> op_connect ->
  run_op env contractAddress o s = (b, s') -> this s' = this s.
Proof.
  intros Ho. destruct s as [x w n].
  destruct o; try congruence; clear Ho; cbn;
    unfold forget, getCounter, incrementCounter, decrementCounter, resetCounter,
      send_and_wait, getOwner, getWalletAddress, getNetwork, isConnected, read_catch;
    unfold_monad.
  all: destruct x as [[c|] [p|] [sg|]]; cbn.
  all: repeat match goal with
         | |- context [match ?f env ?a ?b with _ => _ end] =>
             destruct (f env a b) as [[?|[]] ?]; cbn
         | |- context [match ?f env ?a ?b ?c with _ => _ end] =>
             destruct (f env a b c) as [[?|[]] ?]; cbn
         | |- context [includes ?a ?b] => destruct (includes a b); cbn
         end.
  all: intro H; inversion H; reflexivity.
Qed.

Lemma run_op_contract (o : Op) (s s' : State W) (b : bool) :
  run_op env contractAddress o s = (b, s') ->
  contract (this s') = contract (this s) \/
  (o = op_connect /\ b = true /\ exists c, contract (this s') = Some c).
Proof.
  destruct (Op_eq_connect o) as [-> | Ho].
  - cbn. unfold forget.
    destruct (connect env contractAddress s) as [[r s1] t] eqn:Hrun.
    intro H; inversion H; subst; clear H.
    apply connect_contract in Hrun.
    destruct Hrun as [Hc | (-> & _ & Hc)]; [auto|].
    right. auto.
  - intro H. left. apply run_op_session in H; [rewrite H; reflexivity | exact Ho].
Qed.

Lemma run_ops_stays_connected (os : list Op) :
  forall (s s' : State W) (log : list (Op * bool)),
    contract (this s) <> None ->
    run_ops env contractAddress os s = (log, s') ->
    contract (this s') <> None.
Proof.
  induction os as [|o rest IH]; intros s s' log Hc; cbn.
  - intro H; inversion H; subst; exact Hc.
  - destruct (run_op env contractAddress o s) as [b s1] eqn:Hop.
    destruct (run_ops env contractAddress rest s1) as [log1 s2] eqn:Hrest.
    intro H; inversion H; subst; clear H.
    apply (IH s1 s' log1); [|exact Hrest].
    apply run_op_contract in Hop.
    destruct Hop as [Heq | (_ & _ & c & Hsome)]; congruence.
Qed.

Lemma run_ops_stays_unconnected (os : list Op) :
  forall (s s' : State W) (log : list (Op * bool)),
    contract (this s) = None ->
    run_ops env contractAddress os s = (log, s') ->
    (forall b, In (op_connect, b) log -> b = false) ->
    contract (this s') = None.
Proof.
  induction os as [|o rest IH]; intros s s' log Hc; cbn.
  - intros H _; inversion H; subst; exact Hc.
  - destruct (run_op env contractAddress o s) as [b s1] eqn:Hop.
    destruct (run_ops env contractAddress rest s1) as [log1 s2] eqn:Hrest.
    intros H Hlog; inversion H; subst; clear H.
    apply (IH s1 s' log1); [|exact Hrest|].
    + apply run_op_contract in Hop.
      destruct Hop as [Heq | (-> & -> & _)]; [congruence|].
      specialize (Hlog true (or_introl eq_refl)). discriminate.
    + intros b0 Hin. apply Hlog. right. exact Hin.
Qed.

(** C2, as the code has it.  [isConnected] reads one field and cannot
    fail, and answers true exactly when the contract handle is there.  On
    the service as created it answers false, and keeps answering false as
    long as no [connect] has returned.  A [connect] that returns has either
    run its [try] block to the end, and then the answer is true, or has
    swallowed an [Error] whose message contains "already pending", and then
    the contract handle is what it was.  Once the answer is true no
    sequence of calls makes it false again. *)
Theorem isConnected_lifetime :
  (forall s : State W,
      exists b, isConnected s = (Ok b, s, []) /\
                (b = true <-> contract (this s) <> None)) /\
  (forall (os : list Op) (s s' : State W) (log : list (Op * bool)),
      this s = new_CounterContractService ->
      run_ops env contractAddress os s = (log, s') ->
      (forall b, In (op_connect, b) log -> b = false) ->
      isConnected s' = (Ok false, s', [])) /\
  (forall (s s' : State W) (t : list Event),
      connect env contractAddress s = (Ok tt, s', t) ->
      (connect_try env contractAddress s = (Ok tt, s', t) /\
       isConnected s' = (Ok true, s', []))
      \/
      (exists message code,
          connect_try env contractAddress s = (Throw (JsError message code), s', t) /\
          includes message "already pending" = true /\
          contract (this s') = contract (this s))) /\
  (forall (os : list Op) (s s' : State W) (log : list (Op * bool)),
      isConnected s = (Ok true, s, []) ->
      run_ops env contractAddress os s = (log, s') ->
      isConnected s' = (Ok true, s', [])).
Proof.
  split; [|split; [|split]].
  - intro s. exists (negb (is_null (contract (this s)))).
    split; [reflexivity|].
    destruct (contract (this s)); cbn; split; congruence.
  - intros os s s' log Hnew Hrun Hlog.
    rewrite isConnected_run.
    assert (Hc : contract (this s) = None) by (rewrite Hnew; reflexivity).
    rewrite (run_ops_stays_unconnected os s Hc Hrun Hlog). reflexivity.
  - intros s s' t H. apply connect_inv in H.
    destruct H as [(_ & _ & [H | H]) | (r0 & Hrun & Hr)]; try discriminate.
    pose proof Hrun as Hs. apply connect_try_session in Hs.
    destruct r0 as [[]|e0].
    + left. split; [exact Hrun|].
      destruct Hs as (c & Hc & _). rewrite isConnected_run, Hc. reflexivity.
    + right. destruct e0 as [m c| | |]; cbn in Hr; try discriminate.
      destruct (includes m "already pending") eqn:Hinc; [|discriminate].
      exists m, c. split; [exact Hrun|]. split; [exact Hinc | apply Hs].
  - intros os s s' log Hc Hrun.
    rewrite isConnected_run in *.
    assert (Hs : contract (this s) <> None).
    { destruct (contract (this s)); [discriminate | cbn in Hc; inversion Hc]. }
    pose proof (run_ops_stays_connected os s Hs Hrun) as Hs'.
    destruct (contract (this s')); [reflexivity | congruence].
Qed.

End Lifetime.

(** C2 does not hold as stated: this [connect] on the fresh service returns
    without raising, and [isConnected] still answers false after it. *)
Lemma connect_returns_without_contract :
  match connect Scripted.env Scripted.address
          (Scripted.start new_CounterContractService pending_prompt) with
  | (r, s', _) => r = Ok tt /\ isConnected s' = (Ok false, s', [])
  end.
Proof. vm_compute. split; reflexivity. Qed.

Lemma isConnected_lifetime_witness :
  let s := Scripted.start new_CounterContractService on_sepolia in
  let run := connect Scripted.env Scripted.address s in
  let after := run_ops Scripted.env Scripted.address
                 [op_getCounter; op_connect; op_isConnected] (snd (fst run)) in
  isConnected (snd (fst run)) = (Ok true, snd (fst run), []) /\
  isConnected (snd after) = (Ok true, snd after, []).
Proof.
  intros s run after.
  destruct (isConnected_lifetime Scripted.env Scripted.address)
    as (_ & _ & Hconnect & Hstays).
  assert (Hnow : isConnected (snd (fst run)) = (Ok true, snd (fst run), [])).
  { destruct (Hconnect s (snd (fst run)) (snd run)) as [[_ H] | (m & c & H & _)].
    - vm_compute. reflexivity.
    - exact H.
    - vm_compute in H. discriminate H. }
  split; [exact Hnow|].
  apply (Hstays [op_getCounter; op_connect; op_isConnected]
           (snd (fst run)) (snd after) (fst after) Hnow).
  vm_compute. reflexivity.
Defined.

(** ** Failures inside connect *)

Local Open Scope list_scope.

(** The cases of [In ev t] for a trace that is written out. *)
Ltac each_event H :=
  cbn in H;
  repeat match type of H with
    | _ \/ _ => destruct H as [H | H]
    end;
  [ subst .. | exfalso; exact H ].

Section Propagation.

Variable W : Type.
Variable env : Env W.
Variable contractAddress : string.

(** A failing interaction ends the [try] block, unless it is the switch
    request failing with code 4902.  The block ends with the value the
    interaction threw, or, when the switch request threw [undefined] or
    [null], with the [TypeError] of reading its [code]. *)
Lemma connect_try_failure
    (s s' : State W) (r0 : result unit) (t : list Event) (ev : Event) (e : JsThrown) :
  connect_try env contractAddress s = (r0, s', t) ->
  In ev t ->
  failure ev = Some e ->
  is_unknown_chain_failure ev = false ->
  t = removelast t ++ [ev] /\
  (r0 = Throw e \/
   exists chain te, ev = EvRequest (wallet_switchEthereumChain chain) (Throw e) /\
                    property_code e = Throw te /\ r0 = Throw te).
Proof.
  intros H Hin Hfail Hnot. destruct s as [x w n]. connect_try_paths H.
  all: each_event Hin.
  all: cbn in Hfail; try discriminate Hfail.
  all: inversion Hfail; subst; clear Hfail.
  all: try (split; [reflexivity | left; reflexivity]).
  all: try (split; [reflexivity | right; do 2 eexists; repeat split; reflexivity]).
  all: cbn in Hnot; unfold has_code_4902 in Hnot; cbn in Hnot; congruence.
Qed.

(** C3, as the code has it.  If an interaction of [connect] throws an
    [Error] whose message contains "already pending", and it is not the
    switch request failing with code 4902 (which the inner handler answers
    with the add-chain request), then [connect] returns.  And [connect]
    returns only when its [try] block ran to the end or ended with such an
    [Error]: of the interactions that failed in a run that returned, each is
    a switch failing with code 4902 or threw such an [Error]. *)
Theorem connect_swallows_already_pending
    (s s' : State W) (r : result unit) (t : list Event) :
  connect env contractAddress s = (r, s', t) ->
  (forall ev message code,
      In ev t ->
      failure ev = Some (JsError message code) ->
      includes message "already pending" = true ->
      is_unknown_chain_failure ev = false ->
      r = Ok tt) /\
  (r = Ok tt ->
   (connect_try env contractAddress s = (Ok tt, s', t) \/
    exists message code,
      connect_try env contractAddress s = (Throw (JsError message code), s', t) /\
      includes message "already pending" = true) /\
   (forall ev e,
       In ev t ->
       failure ev = Some e ->
       is_unknown_chain_failure ev = true \/
       is_Error_including "already pending" e = true)).
Proof.
  intro H. apply connect_inv in H.
  destruct H as [(-> & -> & Hr) | (r0 & Hrun & ->)].
  { split.
    - intros ev m c [].
    - intros ->. destruct Hr; discriminate. }
  split.
  - intros ev m c Hin Hfail Hinc Hnot.
    destruct (connect_try_failure s ev Hrun Hin Hfail Hnot)
      as (_ & [-> | (chain & te & _ & Hcode & _)]).
    + cbn. rewrite Hinc. reflexivity.
    + discriminate Hcode.
  - intro Hok. split.
    + destruct r0 as [[]|[m c| | |]]; cbn in Hok; try discriminate; auto.
      right. exists m, c. split; [exact Hrun|].
      destruct (includes m "already pending"); [reflexivity | discriminate].
    + intros ev e Hin Hfail.
      destruct (is_unknown_chain_failure ev) eqn:Hnot; [left; reflexivity | right].
      destruct (connect_try_failure s ev Hrun Hin Hfail Hnot)
        as (_ & [-> | (chain & te & _ & Hcode & ->)]).
      * destruct e as [m c| | |]; cbn in Hok; try discriminate.
        cbn. destruct (includes m "already pending"); [reflexivity | discriminate].
      * destruct e; cbn in Hcode; try discriminate;
          inversion Hcode; subst; vm_compute in Hok; discriminate.
Qed.

End Propagation.

(** C3 does not hold as stated: an interaction throws an [Error] whose
    message contains "already pending", and [connect] raises all the same. *)
Lemma already_pending_not_always_swallowed :
  match connect Scripted.env Scripted.address
          (Scripted.start new_CounterContractService unknown_chain_then_declined) with
  | (r, _, t) =>
      In (EvRequest (wallet_switchEthereumChain "0xaa36a7")
            (Throw (JsError
                      "Unrecognized chain ID 0xaa36a7: a request to add it is already pending"
                      (Some 4902)))) t /\
      includes "Unrecognized chain ID 0xaa36a7: a request to add it is already pending"
        "already pending" = true /\
      r = Throw (JsError "User rejected the request." (Some 4001))
  end.
Proof. vm_compute. repeat split; auto 10. Qed.

Lemma connect_swallows_already_pending_witness :
  let s := Scripted.start new_CounterContractService pending_prompt in
  let run := connect Scripted.env Scripted.address s in
  (forall ev message code,
      In ev (snd run) ->
      failure ev = Some (JsError message code) ->
      includes message "already pending" = true ->
      is_unknown_chain_failure ev = false ->
      fst (fst run) = Ok tt) /\
  (fst (fst run) = Ok tt ->
   (connect_try Scripted.env Scripted.address s = (Ok tt, snd (fst run), snd run) \/
    exists message code,
      connect_try Scripted.env Scripted.address s =
        (Throw (JsError message code), snd (fst run), snd run) /\
      includes message "already pending" = true) /\
   (forall ev e,
       In ev (snd run) ->
       failure ev = Some e ->
       is_unknown_chain_failure ev = true \/
       is_Error_including "already pending" e = true)).
Proof.
  intros s run.
  apply (@connect_swallows_already_pending _ Scripted.env Scripted.address
           s (snd (fst run)) (fst (fst run)) (snd run)).
  vm_compute. reflexivity.
Defined.

(** ** The chain switch *)

(** The places of a trace that is written out where a given event can
    stand, from a hypothesis [t = pre ++ ev :: post]. *)
Ltac split_trace :=
  match goal with
  | H : [] = ?pre ++ _ :: _ |- _ => destruct pre; discriminate H
  | H : _ :: _ = ?pre ++ _ :: _ |- _ =>
      let e0 := fresh "e0" in
      let pre' := fresh "pre" in
      destruct pre as [|e0 pre']; cbn in H; inversion H; subst; clear H;
      try split_trace
  end.

Section Switch.

Variable W : Type.
Variable env : Env W.
Variable contractAddress : string.

(** What follows a failed switch request inside the [try] block. *)
Lemma connect_try_switch_failure
    (s s' : State W) (r0 : result unit) (t pre post : list Event)
    (chain : string) (e : JsThrown) :
  connect_try env contractAddress s = (r0, s', t) ->
  t = pre ++ EvRequest (wallet_switchEthereumChain chain) (Throw e) :: post ->
  match property_code e with
  | Ok code =>
      if strict_equals code 4902 then
        exists res rest,
          post = EvRequest (wallet_addEthereumChain sepolia_parameter) res :: rest /\
          match res with
          | Ok _ => exists p rest', rest = EvNewProvider p :: rest'
          | Throw e' => rest = [] /\ r0 = Throw e'
          end
      else post = [] /\ r0 = Throw e
  | Throw te => post = [] /\ r0 = Throw te
  end.
Proof.
  intros H Ht. destruct s as [x w n]. connect_try_paths H.
  all: split_trace.
  all: cbn.
  all: repeat match goal with
         | Heq : strict_equals _ _ = _ |- _ => rewrite Heq
         end.
  all: try (split; reflexivity).
  all: do 2 eexists; split; [reflexivity|]; cbn.
  all: try (split; reflexivity).
  all: do 2 eexists; reflexivity.
Qed.

(** C5, as the code has it.  When the switch request fails with code
    4902 the next interaction is the add-chain request with the Sepolia
    descriptor, and when that request succeeds the run goes on to derive a
    provider handle.  When the switch request fails with anything else,
    nothing follows it: the inner handler throws the value again, and the
    caller of [connect] receives it unchanged only if it is an [Error]
    whose message does not contain "already pending"; such an [Error] with
    that text makes [connect] return, a value that is not an [Error] is
    replaced by the general connection error, and for [undefined] or [null]
    it is the [TypeError] of reading [code] that reaches the caller. *)
Theorem switch_failure_handling
    (s s' : State W) (r : result unit) (t pre post : list Event)
    (chain : string) (e : JsThrown) :
  connect env contractAddress s = (r, s', t) ->
  t = pre ++ EvRequest (wallet_switchEthereumChain chain) (Throw e) :: post ->
  (has_code_4902 e = true ->
   exists res rest,
     post =
       EvRequest
         (wallet_addEthereumChain
            {| add_chainId := "0xaa36a7";
               chainName := "Sepolia";
               nativeCurrency :=
                 {| currency_name := "ETH"; symbol := "ETH"; decimals := 18 |};
               rpcUrls := ["https://ethereum-sepolia-rpc.publicnode.com"%string];
               blockExplorerUrls := ["https://sepolia.etherscan.io"%string] |})
         res :: rest /\
     (res = Ok tt -> exists p rest', rest = EvNewProvider p :: rest')) /\
  (has_code_4902 e = false ->
   post = [] /\
   match e with
   | JsError message _ =>
       r = if includes message "already pending" then Ok tt else Throw e
   | JsObject _ => r = Throw (new_Error msg_connect_failed)
   | JsUndefined => r = Throw (TypeError_reading "undefined" "code")
   | JsNull => r = Throw (TypeError_reading "null" "code")
   end).
Proof.
  intros H Ht. apply connect_inv in H.
  destruct H as [(_ & -> & _) | (r0 & Hrun & ->)].
  { destruct pre; discriminate Ht. }
  pose proof (connect_try_switch_failure s pre post chain e Hrun Ht) as Hsw.
  unfold has_code_4902.
  destruct e as [m c|c| |]; cbn in Hsw |- *.
  - destruct (strict_equals c 4902); split; intro Hc; try discriminate Hc.
    + destruct Hsw as (res & rest & -> & Hres). exists res, rest.
      split; [reflexivity|]. intros ->. exact Hres.
    + destruct Hsw as (-> & ->). split; [reflexivity|]. cbn.
      destruct (includes m "already pending"); reflexivity.
  - destruct (strict_equals c 4902); split; intro Hc; try discriminate Hc.
    + destruct Hsw as (res & rest & -> & Hres). exists res, rest.
      split; [reflexivity|]. intros ->. exact Hres.
    + destruct Hsw as (-> & ->). split; reflexivity.
  - split; intro Hc; [discriminate Hc|].
    destruct Hsw as (-> & ->). split; reflexivity.
  - split; intro Hc; [discriminate Hc|].
    destruct Hsw as (-> & ->). split; reflexivity.
Qed.

End Switch.

(** C5 does not hold as stated: the switch request fails with an error whose
    code is not 4902, and the caller of [connect] does not receive it;
    [connect] returns. *)
Lemma switch_error_not_always_propagated :
  let e := JsError "Request of type 'wallet_switchEthereumChain' already pending for origin http://localhost:3000. Please wait."
             (Some (-32002)) in
  match connect Scripted.env Scripted.address
          (Scripted.start new_CounterContractService switch_still_pending) with
  | (r, _, t) =>
      In (EvRequest (wallet_switchEthereumChain "0xaa36a7") (Throw e)) t /\
      has_code_4902 e = false /\
      r = Ok tt /\ r <> Throw e
  end.
Proof. vm_compute. repeat split; auto 10. discriminate. Qed.

Lemma switch_failure_handling_witness :
  let s := Scripted.start new_CounterContractService unknown_chain_then_declined in
  let run := connect Scripted.env Scripted.address s in
  let e := JsError "Unrecognized chain ID 0xaa36a7: a request to add it is already pending"
             (Some 4902) in
  exists res rest,
    skipn 5 (snd run) =
      EvRequest
        (wallet_addEthereumChain
           {| add_chainId := "0xaa36a7";
              chainName := "Sepolia";
              nativeCurrency :=
                {| currency_name := "ETH"; symbol := "ETH"; decimals := 18 |};
              rpcUrls := ["https://ethereum-sepolia-rpc.publicnode.com"%string];
              blockExplorerUrls := ["https://sepolia.etherscan.io"%string] |})
        res :: rest /\
    (res = Ok tt -> exists p rest', rest = EvNewProvider p :: rest').
Proof.
  intros s run e.
  apply (proj1 (@switch_failure_handling _ Scripted.env Scripted.address
                  s (snd (fst run)) (fst (fst run)) (snd run)
                  (firstn 4 (snd run)) (skipn 5 (snd run)) "0xaa36a7" e
                  ltac:(vm_compute; reflexivity) ltac:(vm_compute; reflexivity))).
  vm_compute. reflexivity.
Defined.

(** ** After the switch *)

Section Rederive.

Variable W : Type.
Variable env : Env W.
Variable contractAddress : string.

(** What follows a switch or add-chain request that succeeded. *)
Lemma connect_try_after_switch
    (s s' : State W) (r0 : result unit) (t pre post : list Event) (req : Request) :
  connect_try env contractAddress s = (r0, s', t) ->
  t = pre ++ EvRequest req (Ok tt) :: post ->
  is_chain_request (EvRequest req (Ok tt)) = true ->
  exists p res rest,
    post = EvNewProvider p :: EvGetSigner p res :: rest /\
    (forall q, In (EvNewProvider q) pre -> q <> p) /\
    provider (this s') = Some p /\
    match res with
    | Throw _ => rest = []
    | Ok sg =>
        signer (this s') = Some sg /\ signer_provider sg = p /\
        exists res' rest',
          rest = EvGetNetwork p res' :: rest' /\
          match res' with
          | Throw _ => rest' = []
          | Ok _ => exists rc rest'', rest' = EvGetCode p contractAddress rc :: rest''
          end
    end.
Proof.
  intros H Ht Hreq. destruct s as [x w n]. connect_try_paths H.
  all: split_trace.
  all: try discriminate Hreq.
  all: do 3 eexists; split; [reflexivity|]; split;
    [ intros q Hq; cbn in Hq;
      repeat match type of Hq with
        | _ \/ _ => destruct Hq as [Hq | Hq]
        | False => destruct Hq
        | _ = _ => first [ discriminate Hq
                         | inversion Hq; subst; intro Heq; inversion Heq; lia ]
        end
    | split; [reflexivity|] ]; cbn.
  all: try reflexivity.
  all: split; [reflexivity|]; split; [reflexivity|].
  all: do 2 eexists; split; [reflexivity|]; cbn.
  all: try reflexivity.
  all: do 2 eexists; reflexivity.
Qed.

(** C6, as the code has it.  After a switch or add-chain request that
    succeeded, [connect] builds a provider handle that none of the earlier
    ones is, stores it, and asks it for the signer; when that succeeds the
    signer handle is stored too and the network identity is fetched again
    from the new provider handle.  What that identity names is not looked
    at: when the fetch succeeds the run goes on to query the byte-code,
    whatever the chain identifier. *)
Theorem handles_rederived_after_switch
    (s s' : State W) (r : result unit) (t pre post : list Event) (req : Request) :
  connect env contractAddress s = (r, s', t) ->
  t = pre ++ EvRequest req (Ok tt) :: post ->
  is_chain_request (EvRequest req (Ok tt)) = true ->
  exists p res rest,
    post = EvNewProvider p :: EvGetSigner p res :: rest /\
    (forall q, In (EvNewProvider q) pre -> q <> p) /\
    provider (this s') = Some p /\
    match res with
    | Throw _ => rest = []
    | Ok sg =>
        signer (this s') = Some sg /\ signer_provider sg = p /\
        exists res' rest',
          rest = EvGetNetwork p res' :: rest' /\
          match res' with
          | Throw _ => rest' = []
          | Ok _ => exists rc rest'', rest' = EvGetCode p contractAddress rc :: rest''
          end
    end.
Proof.
  intros H Ht Hreq. apply connect_inv in H.
  destruct H as [(_ & -> & _) | (r0 & Hrun & _)].
  { destruct pre; discriminate Ht. }
  exact (connect_try_after_switch s pre post req Hrun Ht Hreq).
Qed.

Lemma none_then_existsb (f : Event -> bool) (l : list Event) :
  (forall ev, In ev l -> f ev = false) -> existsb f l = false.
Proof.
  intro H. induction l as [|a l IH]; [reflexivity|]. cbn.
  rewrite (H a (or_introl eq_refl)). apply IH.
  intros ev Hin. apply H. right. exact Hin.
Qed.

(** C7.  When the first network identity that [connect] fetches names
    chain 11155111, no switch request and no add-chain request is among
    the interactions of the run. *)
Theorem no_chain_request_on_target
    (s s' : State W) (r : result unit) (t pre post : list Event)
    (p : BrowserProvider) (n : Network) :
  connect env contractAddress s = (r, s', t) ->
  t = pre ++ EvGetNetwork p (Ok n) :: post ->
  (forall ev, In ev pre -> is_getNetwork ev = false) ->
  chainId n = 11155111 ->
  forall ev, In ev t -> is_chain_request ev = false.
Proof.
  intros H Ht Hfirst Hchain. apply connect_inv in H.
  destruct H as [(_ & -> & _) | (r0 & Hrun & _)].
  { destruct pre; discriminate Ht. }
  clear r. apply none_then_existsb in Hfirst.
  destruct s as [x w k]. connect_try_paths Hrun.
  all: split_trace.
  all: try discriminate Hfirst.
  all: try match goal with
         | Hb : (chainId ?a =? _) = false |- _ =>
             rewrite Hchain in Hb; vm_compute in Hb; discriminate Hb
         end.
  all: intros ev Hin; each_event Hin; reflexivity.
Qed.

End Rederive.

(** C6 does not hold as stated: the switch request succeeds, the identity
    fetched again from the new provider handle names chain 1, and [connect]
    returns with a contract handle all the same. *)
Lemma refetched_identity_not_checked :
  match connect Scripted.env Scripted.address
          (Scripted.start new_CounterContractService switch_not_honoured) with
  | (r, s', t) =>
      nth_error t 4 = Some (EvRequest (wallet_switchEthereumChain "0xaa36a7") (Ok tt)) /\
      nth_error t 5 = Some (EvNewProvider {| provider_id := 2 |}) /\
      nth_error t 7 =
        Some (EvGetNetwork {| provider_id := 2 |} (Ok {| name := "mainnet"; chainId := 1 |})) /\
      r = Ok tt /\
      contract (this s') <> None
  end.
Proof. vm_compute. repeat split; discriminate. Qed.

Lemma handles_rederived_after_switch_witness :
  let s := Scripted.start new_CounterContractService switch_accepted in
  let run := connect Scripted.env Scripted.address s in
  exists p res rest,
    skipn 5 (snd run) = EvNewProvider p :: EvGetSigner p res :: rest /\
    (forall q, In (EvNewProvider q) (firstn 4 (snd run)) -> q <> p) /\
    provider (this (snd (fst run))) = Some p /\
    match res with
    | Throw _ => rest = []
    | Ok sg =>
        signer (this (snd (fst run))) = Some sg /\ signer_provider sg = p /\
        exists res' rest',
          rest = EvGetNetwork p res' :: rest' /\
          match res' with
          | Throw _ => rest' = []
          | Ok _ => exists rc rest'', rest' = EvGetCode p Scripted.address rc :: rest''
          end
    end.
Proof.
  intros s run.
  apply (@handles_rederived_after_switch _ Scripted.env Scripted.address
           s (snd (fst run)) (fst (fst run)) (snd run)
           (firstn 4 (snd run)) (skipn 5 (snd run))
           (wallet_switchEthereumChain "0xaa36a7")).
  - vm_compute. reflexivity.
  - vm_compute. reflexivity.
  - reflexivity.
Defined.

Lemma no_chain_request_on_target_witness :
  let s := Scripted.start new_CounterContractService on_sepolia in
  let run := connect Scripted.env Scripted.address s in
  existsb is_chain_request (snd run) = false.
Proof.
  intros s run. apply none_then_existsb.
  apply (@no_chain_request_on_target _ Scripted.env Scripted.address
           s (snd (fst run)) (fst (fst run)) (snd run)
           (firstn 3 (snd run)) (skipn 4 (snd run))
           {| provider_id := 0 |} Scripted.sepolia).
  - vm_compute. reflexivity.
  - vm_compute. reflexivity.
  - intros ev Hin. vm_compute in Hin.
    destruct Hin as [<- | [<- | [<- | []]]]; reflexivity.
  - reflexivity.
Defined.

(** ** The guards and handlers of the other methods *)

Section Methods.

Variable W : Type.
Variable env : Env W.

(** C4.  On the service as created, each of the seven operations throws
    its not-connected error, leaves the state as it is and calls
    nothing. *)
Theorem never_connected_operations_fail (w : W) (n : nat) :
  let s := {| this := new_CounterContractService; world := w; heap_next := n |} in
  getCounter env s = (Throw (new_Error msg_contract_not_connected), s, []) /\
  getOwner env s = (Throw (new_Error msg_contract_not_connected), s, []) /\
  getWalletAddress env s = (Throw (new_Error msg_wallet_not_connected), s, []) /\
  getNetwork env s = (Throw (new_Error msg_provider_not_connected), s, []) /\
  incrementCounter env s = (Throw (new_Error msg_contract_not_connected), s, []) /\
  decrementCounter env s = (Throw (new_Error msg_contract_not_connected), s, []) /\
  resetCounter env s = (Throw (new_Error msg_contract_not_connected), s, []) /\
  error_kind (new_Error msg_contract_not_connected) = Some NotConnectedError /\
  error_kind (new_Error msg_wallet_not_connected) = Some NotConnectedError /\
  error_kind (new_Error msg_provider_not_connected) = Some NotConnectedError.
Proof.
  cbv zeta. repeat split; try reflexivity; vm_compute; reflexivity.
Qed.

(** C8.  On a connected session, when the contract read of [getCounter]
    throws, the caller gets the read error of [getCounter] if the value is
    an [Error] whose message contains "could not decode result data", and
    the very value otherwise; [getOwner] does the same with its own read
    error.  Nothing else is called and the fields are not touched. *)
Theorem read_failure_translation
    (s : State W) (c : Contract) (p : BrowserProvider) (e : JsThrown) (w' : W) :
  contract (this s) = Some c ->
  provider (this s) = Some p ->
  let s1 := {| this := this s; world := w'; heap_next := heap_next s |} in
  (env_getCounter env c (world s) = (Throw e, w') ->
   getCounter env s =
     (Throw (if is_Error_including "could not decode result data" e
             then new_Error msg_counter_unreadable else e),
      s1, [EvGetCounter c (Throw e)])) /\
  (env_owner env c (world s) = (Throw e, w') ->
   getOwner env s =
     (Throw (if is_Error_including "could not decode result data" e
             then new_Error msg_owner_unreadable else e),
      s1, [EvOwner c (Throw e)])) /\
  error_kind (new_Error msg_counter_unreadable) = Some ContractReadError /\
  error_kind (new_Error msg_owner_unreadable) = Some ContractReadError.
Proof.
  intros Hc Hp s1. subst s1. destruct s as [[c0 p0 sg0] w n].
  cbn in Hc, Hp |- *. subst c0 p0.
  repeat split; try (vm_compute; reflexivity).
  - intro Hcall. unfold getCounter, read_catch. unfold_monad.
    rewrite Hcall. cbn.
    destruct e as [m k| | |]; cbn; try reflexivity.
    destruct (includes m "could not decode result data"); reflexivity.
  - intro Hcall. unfold getOwner, read_catch. unfold_monad.
    rewrite Hcall. cbn.
    destruct e as [m k| | |]; cbn; try reflexivity.
    destruct (includes m "could not decode result data"); reflexivity.
Qed.

Lemma mutating_guard (m : SendMethod) (prop : string) (s : State W) :
  (contract (this s) = None ->
   send_and_wait env m prop s = (Throw (new_Error msg_contract_not_connected), s, [])) /\
  (forall c, contract (this s) = Some c ->
             exists res rest, snd (send_and_wait env m prop s) = EvSend c m res :: rest).
Proof.
  destruct s as [[c0 p0 sg0] w n]. cbn. unfold send_and_wait. unfold_monad. split.
  - intros ->. reflexivity.
  - intros c ->. cbn.
    destruct (env_send env m c w) as [[tx|e] w1]; cbn;
      [destruct (env_wait env tx w1)|]; do 2 eexists; reflexivity.
Qed.

Lemma getOwner_guard (s : State W) :
  (contract (this s) = None ->
   getOwner env s = (Throw (new_Error msg_contract_not_connected), s, [])) /\
  (forall c, contract (this s) = Some c ->
             exists res, snd (getOwner env s) = [EvOwner c res]).
Proof.
  destruct s as [[c0 p0 sg0] w n]. cbn. unfold getOwner, read_catch. unfold_monad. split.
  - intros ->. reflexivity.
  - intros c ->. cbn.
    destruct (env_owner env c w) as [[o|[m k| | |]] w1]; cbn;
      try (eexists; reflexivity).
    destruct (includes m "could not decode result data"); eexists; reflexivity.
Qed.

Lemma getCounter_guard (s : State W) :
  (contract (this s) = None \/ provider (this s) = None ->
   getCounter env s = (Throw (new_Error msg_contract_not_connected), s, [])) /\
  (forall c p, contract (this s) = Some c -> provider (this s) = Some p ->
               exists res, snd (getCounter env s) = [EvGetCounter c res]).
Proof.
  destruct s as [[c0 p0 sg0] w n]. cbn. unfold getCounter, read_catch. unfold_monad. split.
  - intro H. destruct c0; [|reflexivity]. destruct p0; [|reflexivity].
    destruct H; discriminate.
  - intros c p -> ->. cbn.
    destruct (env_getCounter env c w) as [[v|[m k| | |]] w1]; cbn;
      try (eexists; reflexivity).
    destruct (includes m "could not decode result data"); eexists; reflexivity.
Qed.

(** C10.  [getCounter] refuses when the contract handle or the provider
    handle is missing, and goes on to the contract read when both are
    there.  The three mutating methods and [getOwner] test the contract
    handle alone: without it each of them throws the not-connected error
    and calls nothing, and with it the first thing each of them does is its
    contract call, whatever the provider handle.  So with a contract handle
    and no provider handle, [getCounter] throws the not-connected error
    without calling anything, while the other four go on to their contract
    call. *)
Theorem guard_asymmetry (s : State W) :
  (contract (this s) = None \/ provider (this s) = None ->
   getCounter env s = (Throw (new_Error msg_contract_not_connected), s, []) /\
   error_kind (new_Error msg_contract_not_connected) = Some NotConnectedError) /\
  (forall c,
      contract (this s) = Some c ->
      provider (this s) = None ->
      (exists res rest,
          snd (incrementCounter env s) = EvSend c m_incrementCounter res :: rest) /\
      (exists res rest,
          snd (decrementCounter env s) = EvSend c m_decrementCounter res :: rest) /\
      (exists res rest,
          snd (resetCounter env s) = EvSend c m_resetCounter res :: rest) /\
      (exists res, snd (getOwner env s) = [EvOwner c res])) /\
  (forall c p,
      contract (this s) = Some c ->
      provider (this s) = Some p ->
      exists res, snd (getCounter env s) = [EvGetCounter c res]) /\
  (contract (this s) = None ->
   incrementCounter env s = (Throw (new_Error msg_contract_not_connected), s, []) /\
   decrementCounter env s = (Throw (new_Error msg_contract_not_connected), s, []) /\
   resetCounter env s = (Throw (new_Error msg_contract_not_connected), s, []) /\
   getOwner env s = (Throw (new_Error msg_contract_not_connected), s, [])) /\
  (forall c,
      contract (this s) = Some c ->
      (exists res rest,
          snd (incrementCounter env s) = EvSend c m_incrementCounter res :: rest) /\
      (exists res rest,
          snd (decrementCounter env s) = EvSend c m_decrementCounter res :: rest) /\
      (exists res rest,
          snd (resetCounter env s) = EvSend c m_resetCounter res :: rest) /\
      (exists res, snd (getOwner env s) = [EvOwner c res])).
Proof.
  assert (Hwith : forall c,
      contract (this s) = Some c ->
      (exists res rest,
          snd (incrementCounter env s) = EvSend c m_incrementCounter res :: rest) /\
      (exists res rest,
          snd (decrementCounter env s) = EvSend c m_decrementCounter res :: rest) /\
      (exists res rest,
          snd (resetCounter env s) = EvSend c m_resetCounter res :: rest) /\
      (exists res, snd (getOwner env s) = [EvOwner c res])).
  { intros c Hc. unfold incrementCounter, decrementCounter, resetCounter.
    split; [exact (proj2 (mutating_guard _ _ s) c Hc)|].
    split; [exact (proj2 (mutating_guard _ _ s) c Hc)|].
    split; [exact (proj2 (mutating_guard _ _ s) c Hc)|].
    exact (proj2 (getOwner_guard s) c Hc). }
  split; [|split; [|split; [|split]]].
  - intro H. split; [|vm_compute; reflexivity].
    exact (proj1 (getCounter_guard s) H).
  - intros c Hc _. exact (Hwith c Hc).
  - exact (proj2 (getCounter_guard s)).
  - intro Hc. unfold incrementCounter, decrementCounter, resetCounter.
    split; [exact (proj1 (mutating_guard _ _ s) Hc)|].
    split; [exact (proj1 (mutating_guard _ _ s) Hc)|].
    split; [exact (proj1 (mutating_guard _ _ s) Hc)|].
    exact (proj1 (getOwner_guard s) Hc).
  - exact Hwith.
Qed.

End Methods.

Lemma read_failure_translation_witness :
  let s := Scripted.start connected_session [Scripted.r_throw bad_data] in
  let s1 := Scripted.start connected_session [] in
  getCounter Scripted.env s =
    (Throw (new_Error msg_counter_unreadable), s1, [EvGetCounter counter_contract (Throw bad_data)]) /\
  getOwner Scripted.env s =
    (Throw (new_Error msg_owner_unreadable), s1, [EvOwner counter_contract (Throw bad_data)]).
Proof.
  intros s s1.
  destruct (@read_failure_translation _ Scripted.env s counter_contract wallet_provider
              bad_data (Scripted.page []) eq_refl eq_refl)
    as (Hcounter & Howner & _).
  split.
  - apply Hcounter. vm_compute. reflexivity.
  - apply Howner. vm_compute. reflexivity.
Defined.

Lemma guard_asymmetry_witness :
  let s := Scripted.start contract_only_session
             [Scripted.r_tx {| hash := "0x9fc7" |}; Scripted.r_void] in
  let s0 := Scripted.start new_CounterContractService [] in
  (getCounter Scripted.env s = (Throw (new_Error msg_contract_not_connected), s, []) /\
   error_kind (new_Error msg_contract_not_connected) = Some NotConnectedError) /\
  (exists res rest,
      snd (incrementCounter Scripted.env s) =
        EvSend counter_contract m_incrementCounter res :: rest) /\
  (exists res, snd (getOwner Scripted.env s) = [EvOwner counter_contract res]) /\
  incrementCounter Scripted.env s0 =
    (Throw (new_Error msg_contract_not_connected), s0, []) /\
  getOwner Scripted.env s0 = (Throw (new_Error msg_contract_not_connected), s0, []).
Proof.
  intros s s0.
  destruct (@guard_asymmetry _ Scripted.env s) as (Hread & Hothers & _).
  destruct (@guard_asymmetry _ Scripted.env s0) as (_ & _ & _ & Hwithout & _).
  split; [apply Hread; right; reflexivity|].
  destruct (Hothers counter_contract eq_refl eq_refl) as (Hinc & _ & _ & Howner).
  destruct (Hwithout eq_refl) as (Hinc0 & _ & _ & Howner0).
  repeat split; assumption.
Defined.

(** ** The error for a contract that is not deployed *)

Section NotDeployed.

Variable W : Type.
Variable env : Env W.
Variable contractAddress : string.

(** When the byte-code query answers "0x", the [try] block ends with the
    not-deployed error, whose text is built from the configured address
    and from the identity fetched first, before any switch. *)
Lemma connect_try_not_deployed
    (s s' : State W) (r0 : result unit) (t pre post pre' : list Event)
    (p q : BrowserProvider) (n : Network) :
  connect_try env contractAddress s = (r0, s', t) ->
  t = pre ++ EvGetNetwork p (Ok n) :: post ->
  (forall ev, In ev pre -> is_getNetwork ev = false) ->
  t = pre' ++ [EvGetCode q contractAddress (Ok "0x"%string)] ->
  r0 = Throw (new_Error (not_deployed_message contractAddress (name n) (chainId n))).
Proof.
  intros H Ht Hfirst Hcode. apply none_then_existsb in Hfirst.
  assert (Hlast : last t (EvNewProvider q) = EvGetCode q contractAddress (Ok "0x"%string))
    by (rewrite Hcode; apply last_last).
  clear Hcode pre'.
  destruct s as [x w k]. connect_try_paths H.
  all: split_trace.
  all: try discriminate Hfirst.
  all: try discriminate Hlast.
  all: try reflexivity.
  all: inversion Hlast; subst.
  all: match goal with
       | Hb : (_ =? _)%string = false |- _ => vm_compute in Hb; discriminate Hb
       end.
Qed.

End NotDeployed.

(** C9 fails on the code.  The wallet starts on mainnet and accepts the
    switch; the identity fetched again names Sepolia, chain 11155111; the
    byte-code query on the new provider handle answers "0x".  The error
    that reaches the caller is the not-deployed error with the configured
    address, and the network it names as current is mainnet, chain 1. *)
Theorem not_deployed_names_first_network :
  match connect Scripted.env Scripted.address
          (Scripted.start new_CounterContractService switch_then_no_code) with
  | (r, _, t) =>
      nth_error t 3 = Some (EvGetNetwork {| provider_id := 0 |}
                              (Ok {| name := "mainnet"; chainId := 1 |})) /\
      nth_error t 4 = Some (EvRequest (wallet_switchEthereumChain "0xaa36a7") (Ok tt)) /\
      nth_error t 7 = Some (EvGetNetwork {| provider_id := 2 |}
                              (Ok {| name := "sepolia"; chainId := 11155111 |})) /\
      nth_error t 8 = Some (EvGetCode {| provider_id := 2 |} Scripted.address (Ok "0x"%string)) /\
      r = Throw (new_Error (not_deployed_message Scripted.address "mainnet" 1)) /\
      r <> Throw (new_Error (not_deployed_message Scripted.address "sepolia" 11155111)) /\
      includes (not_deployed_message Scripted.address "mainnet" 1) "sepolia" = false /\
      includes (not_deployed_message Scripted.address "mainnet" 1) "11155111" = false
  end.
Proof. vm_compute. repeat split; discriminate. Qed.

(** * Further properties of the service *)

Section ConnectShape.

Variable W : Type.
Variable env : Env W.
Variable contractAddress : string.

(** Whatever [connect] raises is an [Error], and its message does not
    contain "already pending": values that are not [Error]s are replaced
    by the outer handler, and the guards throw [Error]s of their own. *)
Theorem connect_raises_Errors
    (s s' : State W) (e : JsThrown) (t : list Event) :
  connect env contractAddress s = (Throw e, s', t) ->
  exists message code,
    e = JsError message code /\ includes message "already pending" = false.
Proof.
  intro H. apply connect_inv in H.
  destruct H as [(_ & _ & [H | H]) | (r0 & Hrun & Hr)].
  - inversion H. exists msg_browser_only, None.
    split; [reflexivity | vm_compute; reflexivity].
  - inversion H. exists msg_no_metamask, None.
    split; [reflexivity | vm_compute; reflexivity].
  - destruct r0 as [[]|[m c| | |]]; cbn in Hr; try discriminate Hr.
    + destruct (includes m "already pending") eqn:Hinc; inversion Hr; subst.
      exists m, c. split; [reflexivity | exact Hinc].
    + inversion Hr. exists msg_connect_failed, None.
      split; [reflexivity | vm_compute; reflexivity].
    + inversion Hr. exists msg_connect_failed, None.
      split; [reflexivity | vm_compute; reflexivity].
    + inversion Hr. exists msg_connect_failed, None.
      split; [reflexivity | vm_compute; reflexivity].
Qed.

(** The guards of [connect] and its first step.  Without a [window] the
    run throws the browser-only error, whether or not a wallet is injected;
    with a [window] and no injected wallet it throws the missing-wallet
    error; in both cases nothing is called and nothing changes.  Every
    other run starts with the request for the accounts, and when that
    request fails nothing else is asked and no handle is written.  So a run
    without any interaction is a run stopped by a guard. *)
Theorem connect_starts_with_accounts
    (s s' : State W) (r : result unit) (t : list Event) :
  connect env contractAddress s = (r, s', t) ->
  (env_window env (world s) = false /\
   r = Throw (new_Error msg_browser_only) /\
   error_kind (new_Error msg_browser_only) = Some EnvironmentError /\
   t = [] /\ s' = s)
  \/
  (env_window env (world s) = true /\
   env_ethereum env (world s) = false /\
   r = Throw (new_Error msg_no_metamask) /\
   error_kind (new_Error msg_no_metamask) = Some WalletMissingError /\
   t = [] /\ s' = s)
  \/
  (env_window env (world s) = true /\
   env_ethereum env (world s) = true /\
   exists res rest,
     t = EvRequest eth_requestAccounts res :: rest /\
     (forall e, res = Throw e -> rest = [] /\ this s' = this s /\
                                 r = after_outer_catch (Throw e))).
Proof.
  intro H. pose proof H as Hc. rewrite connect_run in Hc.
  destruct (env_window env (world s)) eqn:Hw; cbn in Hc.
  2:{ inversion Hc; subst. left. repeat split. }
  destruct (env_ethereum env (world s)) eqn:He; cbn in Hc.
  2:{ inversion Hc; subst. right. left. repeat split. }
  clear H. right. right. split; [reflexivity|]. split; [reflexivity|].
  destruct (connect_try env contractAddress s) as [[r0 s1] t1] eqn:Hrun.
  inversion Hc; subst; clear Hc.
  destruct s as [x w n]. connect_try_paths Hrun.
  all: do 2 eexists; split; [reflexivity|]; intros e0 He0; try discriminate He0.
  inversion He0; subst. destruct x. repeat split.
Qed.

End ConnectShape.

Section ChainRequests.

Variable W : Type.
Variable env : Env W.
Variable contractAddress : string.

Lemma connect_try_requests_once (s : State W) :
  (length (filter is_accounts_request (snd (connect_try env contractAddress s))) <= 1)%nat /\
  (length (filter is_switch_request (snd (connect_try env contractAddress s))) <= 1)%nat /\
  (length (filter is_add_request (snd (connect_try env contractAddress s))) <= 1)%nat.
Proof.
  destruct (connect_try env contractAddress s) as [[r0 s1] t] eqn:H.
  destruct s as [x w n]. connect_try_paths H.
  all: repeat split; lia.
Qed.

(** [connect] does not retry: in one run the accounts are requested at most
    once, the switch at most once and the addition of the chain at most
    once, whatever the wallet answers. *)
Theorem connect_requests_once (s : State W) :
  (length (filter is_accounts_request (snd (connect env contractAddress s))) <= 1)%nat /\
  (length (filter is_switch_request (snd (connect env contractAddress s))) <= 1)%nat /\
  (length (filter is_add_request (snd (connect env contractAddress s))) <= 1)%nat.
Proof.
  rewrite connect_run.
  destruct (negb (env_window env (world s))); [cbn; lia|].
  destruct (negb (env_ethereum env (world s))); [cbn; lia|].
  pose proof (connect_try_requests_once s) as H.
  destruct (connect_try env contractAddress s) as [[r0 s1] t]. exact H.
Qed.

(** The other direction of the guard on the chain: when the identity
    fetched first names any chain but 11155111, the next interaction is the
    request to switch to 0xaa36a7. *)
Theorem switch_requested_off_target
    (s s' : State W) (r : result unit) (t pre post : list Event)
    (p : BrowserProvider) (n : Network) :
  connect env contractAddress s = (r, s', t) ->
  t = pre ++ EvGetNetwork p (Ok n) :: post ->
  (forall ev, In ev pre -> is_getNetwork ev = false) ->
  chainId n <> 11155111 ->
  exists res rest,
    post = EvRequest (wallet_switchEthereumChain "0xaa36a7") res :: rest.
Proof.
  intros H Ht Hfirst Hchain. apply connect_inv in H.
  destruct H as [(_ & -> & _) | (r0 & Hrun & _)].
  { destruct pre; discriminate Ht. }
  clear r. apply none_then_existsb in Hfirst.
  destruct s as [x w k]. connect_try_paths Hrun.
  all: split_trace.
  all: try discriminate Hfirst.
  all: try match goal with
         | Hb : (chainId ?a =? _) = true |- _ =>
             apply Z.eqb_eq in Hb; exfalso; apply Hchain; exact Hb
         end.
  all: do 2 eexists; reflexivity.
Qed.

(** The chain is offered to the wallet only as the answer to a switch that
    failed with code 4902: an add-chain request carries the Sepolia
    descriptor and comes right after such a failure. *)
Theorem add_request_only_after_unknown_chain
    (s s' : State W) (r : result unit) (t pre post : list Event)
    (d : AddChainParameter) (res : result unit) :
  connect env contractAddress s = (r, s', t) ->
  t = pre ++ EvRequest (wallet_addEthereumChain d) res :: post ->
  d = sepolia_parameter /\
  exists pre' e,
    pre = pre' ++ [EvRequest (wallet_switchEthereumChain "0xaa36a7") (Throw e)] /\
    has_code_4902 e = true.
Proof.
  intros H Ht. apply connect_inv in H.
  destruct H as [(_ & -> & _) | (r0 & Hrun & _)].
  { destruct pre; discriminate Ht. }
  clear r. destruct s as [x w k]. connect_try_paths Hrun.
  all: split_trace.
  all: split; [reflexivity|].
  all: match goal with
       | |- exists pre' e, ?l = _ /\ _ =>
           exists (removelast l);
           match l with
           | context [EvRequest (wallet_switchEthereumChain _) (Throw ?e)] => exists e
           end
       end.
  all: split; [reflexivity|].
  all: unfold has_code_4902; cbn; assumption.
Qed.

(** A run that builds a contract handle returns, and leaves three handles
    that belong together: the contract is bound to the configured address
    and to the signer of the session, that signer was derived from the
    provider of the session, and the byte-code query that came back with
    code went through that same provider, right before the contract was
    built.  All three are objects made during this run. *)
Theorem connect_success_handles
    (s s' : State W) (r : result unit) (t : list Event) (c : Contract) :
  connect env contractAddress s = (r, s', t) ->
  In (EvNewContract c) t ->
  r = Ok tt /\
  exists p sg code pre,
    this s' = {| contract := Some c; provider := Some p; signer := Some sg |} /\
    target c = contractAddress /\
    runner c = Some sg /\
    signer_provider sg = p /\
    t = pre ++ [EvGetCode p contractAddress (Ok code); EvNewContract c] /\
    code <> "0x"%string /\
    (heap_next s <= provider_id p < signer_id sg)%nat /\
    (signer_id sg < contract_id c < heap_next s')%nat.
Proof.
  intros H Hin. apply connect_inv in H.
  destruct H as [(_ & -> & _) | (r0 & Hrun & ->)]; [destruct Hin|].
  destruct s as [x w k]. connect_try_paths Hrun.
  all: each_event Hin.
  all: try discriminate Hin.
  all: inversion Hin; subst; clear Hin.
  all: split; [reflexivity|].
  all: match goal with
       | Hb : (?code =? "0x")%string = false |- context [removelast] => idtac
       | Hb : (?code =? "0x")%string = false
         |- exists p sg code0 pre, _ /\ _ /\ _ /\ _ /\ ?l = _ /\ _ =>
           do 3 eexists; exists (removelast (removelast l));
           repeat split; try reflexivity; try (cbn; lia);
           apply String.eqb_neq; exact Hb
       end.
Qed.

End ChainRequests.

Section Deployment.

Variable W : Type.
Variable env : Env W.
Variable contractAddress : string.

Lemma error_kind_not_deployed (address network_name : string) (chain : Z) :
  error_kind (new_Error (not_deployed_message address network_name chain)) =
  Some ContractNotFoundError.
Proof. destruct address; vm_compute; reflexivity. Qed.

Lemma connect_try_empty_code
    (s s' : State W) (r0 : result unit) (t pre post : list Event)
    (p q : BrowserProvider) (n : Network) :
  connect_try env contractAddress s = (r0, s', t) ->
  t = pre ++ EvGetNetwork p (Ok n) :: post ->
  (forall ev, In ev pre -> is_getNetwork ev = false) ->
  In (EvGetCode q contractAddress (Ok "0x"%string)) t ->
  r0 = Throw (new_Error (not_deployed_message contractAddress (name n) (chainId n))) /\
  contract (this s') = contract (this s) /\
  existsb is_new_contract t = false /\
  provider (this s') = Some q.
Proof.
  intros H Ht Hfirst Hin. apply none_then_existsb in Hfirst.
  destruct s as [x w k]. connect_try_paths H.
  all: split_trace.
  all: try discriminate Hfirst.
  all: each_event Hin.
  all: try discriminate Hin.
  all: inversion Hin; subst; clear Hin.
  all: try (repeat split; reflexivity).
  all: match goal with
       | Hb : (_ =? _)%string = false |- _ => vm_compute in Hb; discriminate Hb
       end.
Qed.

(** When the byte-code query answers "0x", [connect] builds no contract
    handle and leaves the one it had.  The [try] block ends with the
    not-deployed error, whose text carries the configured address and the
    name and chain identifier of the identity fetched first in the run;
    the caller receives that error unless this very text contains
    "already pending".  The chain identifier is taken up to 2^53 in size,
    where [Number] and the template literal are exact. *)
Theorem empty_code_is_not_deployed
    (s s' : State W) (r : result unit) (t pre post : list Event)
    (p q : BrowserProvider) (n : Network) :
  connect env contractAddress s = (r, s', t) ->
  t = pre ++ EvGetNetwork p (Ok n) :: post ->
  (forall ev, In ev pre -> is_getNetwork ev = false) ->
  In (EvGetCode q contractAddress (Ok "0x"%string)) t ->
  - 2 ^ 53 <= chainId n <= 2 ^ 53 ->
  let text := not_deployed_message contractAddress (name n) (chainId n) in
  contract (this s') = contract (this s) /\
  existsb is_new_contract t = false /\
  provider (this s') = Some q /\
  error_kind (new_Error text) = Some ContractNotFoundError /\
  r = (if includes text "already pending" then Ok tt else Throw (new_Error text)).
Proof.
  intros H Ht Hfirst Hin _ text. apply connect_inv in H.
  destruct H as [(_ & -> & _) | (r0 & Hrun & ->)]; [destruct Hin|].
  destruct (@connect_try_empty_code s s' r0 t pre post p q n Hrun Ht Hfirst Hin)
    as (-> & Hc & Hn & Hp).
  split; [exact Hc|]. split; [exact Hn|]. split; [exact Hp|].
  split; [apply error_kind_not_deployed|].
  unfold after_outer_catch, new_Error. fold text.
  destruct (includes text "already pending"); reflexivity.
Qed.

End Deployment.

Section Operations.

Variable W : Type.
Variable env : Env W.
Variable contractAddress : string.

(** [incrementCounter], [decrementCounter] and [resetCounter] on a session
    with a contract handle: the transaction is submitted, and only when the
    submission succeeds is its inclusion awaited, on the transaction that
    was returned.  The method returns exactly when both succeed; a failure
    of either reaches the caller as it was thrown.  No field is written. *)
Theorem mutation_waits_for_inclusion
    (m : SendMethod) (s s' : State W) (r : result unit) (t : list Event)
    (c : Contract) :
  contract (this s) = Some c ->
  mutating_method env m s = (r, s', t) ->
  this s' = this s /\
  ((exists e, t = [EvSend c m (Throw e)] /\ r = Throw e) \/
   (exists tx, t = [EvSend c m (Ok tx); EvWait tx r])).
Proof.
  intros Hc H. destruct s as [[c0 p0 sg0] w n]. cbn in Hc. subst c0.
  destruct m; cbn in H;
    unfold incrementCounter, decrementCounter, resetCounter, send_and_wait in H;
    unfold_monad_in H.
  all: match type of H with
       | context [env_send env ?m ?c ?w] =>
           destruct (env_send env m c w) as [[tx|e] w1]; cbn in H
       end.
  all: try match type of H with
         | context [env_wait env ?tx ?w] =>
             destruct (env_wait env tx w) as [rw w2]; cbn in H
         end.
  all: inversion H; subst; clear H; split; [reflexivity|].
  all: first [ left; eexists; split; reflexivity
             | right; eexists; reflexivity ].
Qed.

Lemma connect_try_nested (s s' : State W) (r0 : result unit) (t : list Event) :
  connect_try env contractAddress s = (r0, s', t) ->
  handles_nested (this s) -> handles_nested (this s').
Proof.
  intros H [Hs Hc]. destruct s as [[c0 p0 sg0] w n]. connect_try_paths H.
  all: split; cbn; intros; try split; try discriminate; auto.
  all: try (apply Hc; assumption).
Qed.

Lemma run_op_nested (o : Op) (s s' : State W) (b : bool) :
  run_op env contractAddress o s = (b, s') ->
  handles_nested (this s) -> handles_nested (this s').
Proof.
  destruct (Op_eq_connect o) as [-> | Ho].
  - cbn. unfold forget.
    destruct (connect env contractAddress s) as [[r s1] t] eqn:Hrun.
    intro H; inversion H; subst; clear H.
    apply connect_inv in Hrun.
    destruct Hrun as [(-> & _) | (r0 & Hrun & _)]; [auto|].
    apply (connect_try_nested _ Hrun).
  - intros H Hn. apply run_op_session in H; [rewrite H; exact Hn | exact Ho].
Qed.

Lemma run_ops_nested (os : list Op) :
  forall (s s' : State W) (log : list (Op * bool)),
    run_ops env contractAddress os s = (log, s') ->
    handles_nested (this s) -> handles_nested (this s').
Proof.
  induction os as [|o rest IH]; intros s s' log; cbn.
  - intro H; inversion H; subst; auto.
  - destruct (run_op env contractAddress o s) as [b s1] eqn:Hop.
    destruct (run_ops env contractAddress rest s1) as [log1 s2] eqn:Hrest.
    intros H Hn; inversion H; subst; clear H.
    apply (IH s1 s' log1 Hrest). apply (run_op_nested _ _ Hop Hn).
Qed.

(** Whatever is called on the service as created, in whatever order and
    whatever the wallet answers, a signer handle is never there without a
    provider handle and a contract handle never without the other two.  So
    the second half of the guard of [getCounter] never decides: as soon as
    the contract handle is there, [getCounter] goes on to the contract
    read. *)
Theorem handles_stay_nested
    (os : list Op) (s s' : State W) (log : list (Op * bool)) :
  this s = new_CounterContractService ->
  run_ops env contractAddress os s = (log, s') ->
  handles_nested (this s') /\
  (forall c, contract (this s') = Some c ->
             exists res, snd (getCounter env s') = [EvGetCounter c res]).
Proof.
  intros Hnew Hrun.
  assert (Hn : handles_nested (this s')).
  { apply (run_ops_nested os _ Hrun). rewrite Hnew.
    split; cbn; intro H; elim H; reflexivity. }
  split; [exact Hn|].
  intros c Hc. destruct Hn as [_ Hn].
  destruct Hn as [Hp _]; [rewrite Hc; discriminate|].
  destruct s' as [[c0 p0 sg0] w n]. cbn in Hc, Hp. subst c0.
  destruct p0 as [p|]; [|elim Hp; reflexivity].
  unfold getCounter, read_catch. unfold_monad.
  destruct (env_getCounter env c w) as [[v|[m k| | |]] w1]; cbn;
    try (eexists; reflexivity).
  destruct (includes m "could not decode result data"); eexists; reflexivity.
Qed.

(** The handles are written by [connect] alone: a sequence of calls without
    [connect] leaves the three fields as they were. *)
Theorem only_connect_writes_handles
    (os : list Op) (s s' : State W) (log : list (Op * bool)) :
  (forall o, In o os -> o <> op_connect) ->
  run_ops env contractAddress os s = (log, s') ->
  this s' = this s.
Proof.
  revert s s' log. induction os as [|o rest IH]; intros s s' log Hno; cbn.
  - intro H; inversion H; reflexivity.
  - destruct (run_op env contractAddress o s) as [b s1] eqn:Hop.
    destruct (run_ops env contractAddress rest s1) as [log1 s2] eqn:Hrest.
    intro H; inversion H; subst; clear H.
    apply run_op_session in Hop; [|apply Hno; left; reflexivity].
    rewrite <- Hop. apply (IH s1 s' log1); [|exact Hrest].
    intros o' Hin. apply Hno. right. exact Hin.
Qed.

(** A [connect] that failed after a signer was derived leaves a session
    that is not connected and still answers: [getWalletAddress] and
    [getNetwork] pass their guards and go to the signer and the provider
    left behind, while [getCounter], on a session that had no contract
    handle, throws the not-connected error. *)
Theorem failed_connect_leaves_usable_handles
    (s s' : State W) (e : JsThrown) (t : list Event)
    (p : BrowserProvider) (sg : JsonRpcSigner) :
  connect env contractAddress s = (Throw e, s', t) ->
  In (EvGetSigner p (Ok sg)) t ->
  exists p' sg',
    provider (this s') = Some p' /\
    signer (this s') = Some sg' /\
    (exists res, snd (getWalletAddress env s') = [EvGetAddress sg' res]) /\
    (exists res, snd (getNetwork env s') = [EvGetNetwork p' res]) /\
    (contract (this s) = None ->
     getCounter env s' = (Throw (new_Error msg_contract_not_connected), s', [])).
Proof.
  intros H Hin. apply connect_inv in H.
  destruct H as [(_ & -> & _) | (r0 & Hrun & Hr)]; [destruct Hin|].
  symmetry in Hr. apply after_outer_catch_throw in Hr. destruct Hr as [e0 ->].
  destruct s as [[c0 p0 sg0] w n]. connect_try_paths Hrun.
  all: each_event Hin.
  all: try discriminate Hin.
  all: do 2 eexists; split; [reflexivity|]; split; [reflexivity|].
  all: unfold getWalletAddress, getNetwork, getCounter; unfold_monad.
  all: repeat split.
  all: try (intros ->; reflexivity).
  all: match goal with
       | |- context [env_getAddress env ?a ?b] =>
           destruct (env_getAddress env a b) as [? ?]; eexists; reflexivity
       | |- context [env_getNetwork env ?a ?b] =>
           destruct (env_getNetwork env a b) as [? ?]; eexists; reflexivity
       end.
Qed.

End Operations.

(** * The page *)

#[local] Arguments connect : simpl never.

Ltac unfold_page :=
  unfold CounterApp.effect_isConnected, CounterApp.connectWallet, CounterApp.submit,
    CounterApp.loadCounter, CounterApp.loadOwner, CounterApp.loadWalletAddress,
    CounterApp.loadNetwork,
    CounterApp.setCounter, CounterApp.setIsConnected, CounterApp.setIsLoading,
    CounterApp.setError, CounterApp.setOwner, CounterApp.setWalletAddress,
    CounterApp.setNetworkName, CounterApp.setNetworkChainId,
    CounterApp.set_ui, CounterApp.get_ui, CounterApp.await,
    CounterApp.hfinally, CounterApp.htry_catch, CounterApp.hbind, CounterApp.hret;
  cbn.

(** The reads of the service on a state whose fields are written out, split
    on what the environment answers. *)
Ltac split_reads :=
  unfold getCounter, getOwner, getWalletAddress, getNetwork, read_catch,
    mutating_method, incrementCounter, decrementCounter, resetCounter,
    send_and_wait;
  unfold_monad;
  repeat match goal with
    | |- context [env_getNetwork ?e ?p ?w] =>
        destruct (env_getNetwork e p w) as [[?|?] ?]; cbn
    | |- context [env_getCounter ?e ?c ?w] =>
        destruct (env_getCounter e c w) as [[?|[? ?|?| |]] ?]; cbn
    | |- context [env_owner ?e ?c ?w] =>
        destruct (env_owner e c w) as [[?|[? ?|?| |]] ?]; cbn
    | |- context [env_getAddress ?e ?c ?w] =>
        destruct (env_getAddress e c w) as [[?|?] ?]; cbn
    | |- context [env_send ?e ?m ?c ?w] =>
        destruct (env_send e m c w) as [[?|?] ?]; cbn
    | |- context [env_wait ?e ?c ?w] =>
        destruct (env_wait e c w) as [[[]|?] ?]; cbn
    | |- context [includes ?a ?b] => destruct (includes a b); cbn
    end.

Section PageFacts.

Variable W : Type.
Variable env : Env W.
Variable contractAddress : string.

Lemma connect_throw_is_Error
    (s s' : State W) (e : JsThrown) (t : list Event) :
  connect env contractAddress s = (Throw e, s', t) ->
  exists message code, e = JsError message code.
Proof.
  intro H. apply connect_inv in H.
  destruct H as [(_ & _ & [H | H]) | (r0 & Hrun & Hr)].
  - inversion H. unfold new_Error. eauto.
  - inversion H. unfold new_Error. eauto.
  - destruct r0 as [[]|[m c| | |]]; cbn in Hr; try discriminate Hr;
      try (inversion Hr; unfold new_Error; eauto; fail).
    destruct (includes m "already pending"); inversion Hr; eauto.
Qed.

Lemma connect_events_kind
    (s s' : State W) (r : result unit) (t : list Event) :
  connect env contractAddress s = (r, s', t) ->
  forallb is_connect_event t = true.
Proof.
  intro H. apply connect_inv in H.
  destruct H as [(_ & -> & _) | (r0 & Hrun & _)]; [reflexivity|].
  destruct s as [x w n]. connect_try_paths Hrun.
  all: reflexivity.
Qed.

(** When [connect] raises, [connectWallet] shows the message of the error
    it raised, which is always an [Error], takes the loading flag away,
    keeps [isConnected] and every displayed value, and calls nothing
    else. *)
Theorem connectWallet_shows_connect_error
    (ps : CounterApp.PageState W) (e : JsThrown) (s1 : State W) (t1 : list Event) :
  connect env contractAddress (CounterApp.service ps) = (Throw e, s1, t1) ->
  exists message code,
    e = JsError message code /\
    CounterApp.connectWallet env contractAddress ps =
      (Ok tt,
       {| CounterApp.ui :=
            {| CounterApp.ui_counter := CounterApp.ui_counter (CounterApp.ui ps);
               CounterApp.ui_isConnected := CounterApp.ui_isConnected (CounterApp.ui ps);
               CounterApp.ui_isLoading := false;
               CounterApp.ui_error := Some message;
               CounterApp.ui_owner := CounterApp.ui_owner (CounterApp.ui ps);
               CounterApp.ui_walletAddress := CounterApp.ui_walletAddress (CounterApp.ui ps);
               CounterApp.ui_networkName := CounterApp.ui_networkName (CounterApp.ui ps);
               CounterApp.ui_networkChainId := CounterApp.ui_networkChainId (CounterApp.ui ps) |};
          CounterApp.service := s1 |},
       t1).
Proof.
  intro H. destruct (connect_throw_is_Error _ H) as (m & c & ->).
  exists m, c. split; [reflexivity|].
  destruct ps as [u s]. cbn [CounterApp.service CounterApp.ui] in *.
  unfold_page. rewrite H. cbn. rewrite !app_nil_r. reflexivity.
Qed.

(** A [connect] that returned without a contract handle (it swallowed an
    "already pending" error): [connectWallet] sets [isConnected] all the
    same, while [isConnected()] of the service still answers false, and
    the banner shows the not-connected error that the counter load ran
    into. *)
Theorem connectWallet_after_swallowed_connect
    (ps ps' : CounterApp.PageState W) (s1 : State W) (t1 t : list Event)
    (r : result unit) :
  connect env contractAddress (CounterApp.service ps) = (Ok tt, s1, t1) ->
  contract (this s1) = None ->
  CounterApp.connectWallet env contractAddress ps = (r, ps', t) ->
  CounterApp.ui_isConnected (CounterApp.ui ps') = true /\
  isConnected (CounterApp.service ps') = (Ok false, CounterApp.service ps', []) /\
  CounterApp.ui_error (CounterApp.ui ps') = Some msg_contract_not_connected /\
  CounterApp.ui_counter (CounterApp.ui ps') = CounterApp.ui_counter (CounterApp.ui ps) /\
  CounterApp.ui_owner (CounterApp.ui ps') = CounterApp.ui_owner (CounterApp.ui ps).
Proof.
  intros H Hc Hw.
  destruct ps as [u s]. cbn [CounterApp.service CounterApp.ui] in *.
  revert Hw. unfold_page. rewrite H. cbn.
  destruct s1 as [[c p sg] w n]. cbn in Hc. subst c.
  destruct p as [p|], sg as [sg|]; split_reads.
  all: intro Hw; inversion Hw; subst; clear Hw; cbn.
  all: repeat split; reflexivity.
Qed.

(** A click on [+], [-] or the reset button, on a session with a contract
    and a provider handle.  The handler ends not loading, whatever happens.
    If the submission or the wait for inclusion fails, the banner shows the
    message of the failure (or the fallback text for a value that is not an
    [Error]), the counter shown stays and no read is made.  Only after the
    wait ended is the counter read, once; the value read is the one shown,
    and a failed read goes to the banner. *)
Theorem submit_reads_after_inclusion
    (m : SendMethod) (fallback : string)
    (ps ps' : CounterApp.PageState W) (r : result unit) (t : list Event)
    (c : Contract) (p : BrowserProvider) :
  contract (this (CounterApp.service ps)) = Some c ->
  provider (this (CounterApp.service ps)) = Some p ->
  CounterApp.submit env m fallback ps = (r, ps', t) ->
  let u := CounterApp.ui ps in
  let u' := CounterApp.ui ps' in
  r = Ok tt /\
  CounterApp.ui_isLoading u' = false /\
  CounterApp.ui_isConnected u' = CounterApp.ui_isConnected u /\
  this (CounterApp.service ps') = this (CounterApp.service ps) /\
  ((exists e,
       t = [EvSend c m (Throw e)] /\
       CounterApp.ui_error u' = Some (CounterApp.message_or fallback e) /\
       CounterApp.ui_counter u' = CounterApp.ui_counter u)
   \/
   (exists tx e,
       t = [EvSend c m (Ok tx); EvWait tx (Throw e)] /\
       CounterApp.ui_error u' = Some (CounterApp.message_or fallback e) /\
       CounterApp.ui_counter u' = CounterApp.ui_counter u)
   \/
   (exists tx v,
       t = [EvSend c m (Ok tx); EvWait tx (Ok tt); EvGetCounter c (Ok v)] /\
       CounterApp.ui_error u' = None /\
       CounterApp.ui_counter u' = v)
   \/
   (exists tx e message,
       t = [EvSend c m (Ok tx); EvWait tx (Ok tt); EvGetCounter c (Throw e)] /\
       CounterApp.ui_error u' = Some message /\
       CounterApp.ui_counter u' = CounterApp.ui_counter u)).
Proof.
  intros Hc Hp Hs u u'. subst u u'.
  destruct ps as [u [[c0 p0 sg0] w n]]. cbn in Hc, Hp. subst c0 p0.
  revert Hs. unfold_page. destruct m; split_reads.
  all: intro Hs; inversion Hs; subst; clear Hs; cbn.
  all: repeat (split; [reflexivity|]).
  all: first
    [ left; eexists; repeat split; reflexivity
    | right; left; do 2 eexists; repeat split; reflexivity
    | right; right; left; do 2 eexists; repeat split; reflexivity
    | right; right; right; do 3 eexists; repeat split; reflexivity ].
Qed.

End PageFacts.

Section PageLoads.

Variable W : Type.
Variable env : Env W.
Variable contractAddress : string.

Arguments read_catch : simpl never.
Arguments read_error : simpl never.
Arguments CounterApp.message_or : simpl never.

Lemma read_catch_run (A : Type) (replacement : string) (e : JsThrown) (s : State W) :
  @read_catch W A replacement e s = (Throw (read_error replacement e), s, []).
Proof.
  unfold read_catch, read_error.
  destruct e as [m c| | |]; cbn; try reflexivity.
  destruct (includes m "could not decode result data"); reflexivity.
Qed.

(** The reads of the loaders on a session with its three handles, split on
    whether the environment answers or throws. *)
Ltac split_loads :=
  unfold getCounter, getOwner, getWalletAddress, getNetwork;
  unfold_monad;
  repeat match goal with
    | |- context [env_getNetwork ?e ?p ?w] =>
        destruct (env_getNetwork e p w) as [[?|?] ?]; cbn
    | |- context [env_getCounter ?e ?c ?w] =>
        destruct (env_getCounter e c w) as [[?|?] ?]; cbn;
        rewrite ?read_catch_run; cbn
    | |- context [env_owner ?e ?c ?w] =>
        destruct (env_owner e c w) as [[?|?] ?]; cbn;
        rewrite ?read_catch_run; cbn
    | |- context [env_getAddress ?e ?c ?w] =>
        destruct (env_getAddress e c w) as [[?|?] ?]; cbn
    end.

(** [connectWallet] on the page, when [connect] returned with the three
    handles, wherever the counter load of the effect ends.  The handler sets
    [isConnected], ends not loading and writes no field of the service.
    After the interactions of [connect] come the reads of the loaders and
    nothing else: one of the network, one of the owner, one of the wallet
    address, and of the counter one, or two when the effect fired because
    [isConnected] was false.  Only a counter read can reach the banner: it
    is empty exactly when no counter read threw, whatever became of the
    other three reads.  Each value shown is the one its read returned last,
    and the one from before when no such read returned. *)
Theorem connectWallet_banner_follows_counter
    (ends : CounterApp.EffectEnd)
    (ps ps' : CounterApp.PageState W) (s1 : State W) (t1 t : list Event)
    (r : result unit) (c : Contract) (p : BrowserProvider) (sg : JsonRpcSigner) :
  connect env contractAddress (CounterApp.service ps) = (Ok tt, s1, t1) ->
  this s1 = {| contract := Some c; provider := Some p; signer := Some sg |} ->
  CounterApp.connectWallet_on_page env contractAddress ends ps = (r, ps', t) ->
  let u := CounterApp.ui ps in
  let u' := CounterApp.ui ps' in
  exists tl,
    t = t1 ++ tl /\
    r = Ok tt /\
    CounterApp.ui_isConnected u' = true /\
    CounterApp.ui_isLoading u' = false /\
    this (CounterApp.service ps') = this s1 /\
    length (filter is_getNetwork tl) = 1%nat /\
    length (filter is_owner_read tl) = 1%nat /\
    length (filter is_address_read tl) = 1%nat /\
    length (filter is_counter_read tl) =
      (if CounterApp.ui_isConnected u then 1%nat else 2%nat) /\
    length tl = (if CounterApp.ui_isConnected u then 4%nat else 5%nat) /\
    (CounterApp.ui_error u' = None <-> existsb is_counter_failure tl = false) /\
    CounterApp.ui_counter u' =
      match last_counter_value tl with
      | Some v => v
      | None => CounterApp.ui_counter u
      end /\
    CounterApp.ui_networkName u' =
      match last_network tl with
      | Some n => name n
      | None => CounterApp.ui_networkName u
      end /\
    CounterApp.ui_networkChainId u' =
      match last_network tl with
      | Some n => chainId n
      | None => CounterApp.ui_networkChainId u
      end /\
    CounterApp.ui_owner u' =
      match last_owner tl with
      | Some o => o
      | None => CounterApp.ui_owner u
      end /\
    CounterApp.ui_walletAddress u' =
      match last_address tl with
      | Some a => a
      | None => CounterApp.ui_walletAddress u
      end.
Proof.
  intros Hcon Hthis Hw u u'. subst u u'.
  destruct ps as [[cnt conn load err own wal nn nc] s].
  cbn [CounterApp.service CounterApp.ui] in *.
  destruct s1 as [x1 w1 n1]. cbn in Hthis. subst x1.
  revert Hw.
  unfold CounterApp.connectWallet_on_page, CounterApp.effect_if.
  unfold_page. rewrite Hcon. cbn.
  destruct ends, conn; cbn; split_loads.
  all: intro Hw; inversion Hw; subst; clear Hw.
  all: rewrite ?app_nil_r, <- ?app_assoc.
  all: eexists; split; [reflexivity|].
  all: cbn.
  all: repeat split; try reflexivity; intros; try reflexivity; discriminate.
Qed.

End PageLoads.


Section PageLife.

Variable W : Type.
Variable env : Env W.
Variable contractAddress : string.

(** What one handler does to the flags and to the service. *)
Lemma onClick_summary
    (c : CounterApp.Click) (ps ps' : CounterApp.PageState W)
    (r : result unit) (t : list Event) :
  CounterApp.onClick env contractAddress c ps = (r, ps', t) ->
  CounterApp.ui_isLoading (CounterApp.ui ps') = false /\
  match c with
  | CounterApp.click_connect =>
      exists r1 s1 t1,
        connect env contractAddress (CounterApp.service ps) = (r1, s1, t1) /\
        this (CounterApp.service ps') = this s1 /\
        match r1 with
        | Throw _ =>
            t = t1 /\
            CounterApp.ui_isConnected (CounterApp.ui ps') = CounterApp.ui_isConnected (CounterApp.ui ps)
        | Ok _ => CounterApp.ui_isConnected (CounterApp.ui ps') = true
        end
  | _ =>
      CounterApp.ui_isConnected (CounterApp.ui ps') = CounterApp.ui_isConnected (CounterApp.ui ps) /\
      this (CounterApp.service ps') = this (CounterApp.service ps) /\
      existsb is_connect_event t = false /\
      (contract (this (CounterApp.service ps)) = None ->
       t = [] /\ CounterApp.service ps' = CounterApp.service ps /\
       CounterApp.ui_error (CounterApp.ui ps') = Some msg_contract_not_connected)
  end.
Proof.
  destruct ps as [u s]. cbn [CounterApp.service CounterApp.ui].
  destruct c; cbn [CounterApp.onClick].
  - destruct (connect env contractAddress s) as [[r1 s1] t1] eqn:Hc.
    unfold_page. rewrite Hc. destruct r1 as [[]|e]; cbn.
    + destruct s1 as [[c p sg] w n].
      destruct c as [c|], p as [p|], sg as [sg|]; split_reads.
      all: intro H; inversion H; subst; clear H; cbn.
      all: split; [reflexivity|]; do 3 eexists; repeat split; reflexivity.
    + intro H; inversion H; subst; clear H; cbn.
      split; [reflexivity|]. do 3 eexists. rewrite !app_nil_r.
      repeat split; reflexivity.
  - unfold CounterApp.incrementCounter. unfold_page.
    destruct s as [[c p sg] w n].
    destruct c as [c|], p as [p|]; split_reads.
    all: intro H; inversion H; subst; clear H; cbn.
    all: repeat split; try reflexivity; try discriminate.
  - unfold CounterApp.decrementCounter. unfold_page.
    destruct s as [[c p sg] w n].
    destruct c as [c|], p as [p|]; split_reads.
    all: intro H; inversion H; subst; clear H; cbn.
    all: repeat split; try reflexivity; try discriminate.
  - unfold CounterApp.resetCounter. unfold_page.
    destruct s as [[c p sg] w n].
    destruct c as [c|], p as [p|]; split_reads.
    all: intro H; inversion H; subst; clear H; cbn.
    all: repeat split; try reflexivity; try discriminate.
Qed.

Lemma effect_summary
    (ps ps' : CounterApp.PageState W) (r : result unit) (t : list Event) :
  CounterApp.effect_isConnected env ps = (r, ps', t) ->
  CounterApp.ui_isLoading (CounterApp.ui ps') = CounterApp.ui_isLoading (CounterApp.ui ps) /\
  CounterApp.ui_isConnected (CounterApp.ui ps') = CounterApp.ui_isConnected (CounterApp.ui ps) /\
  this (CounterApp.service ps') = this (CounterApp.service ps) /\
  existsb is_connect_event t = false.
Proof.
  destruct ps as [[cnt conn load err own wal nn nc] [[c p sg] w n]]. unfold_page.
  destruct conn; cbn.
  - destruct c as [c|], p as [p|]; split_reads.
    all: intro H; inversion H; subst; clear H; cbn.
    all: repeat split; reflexivity.
  - intro H; inversion H; subst; clear H. repeat split; reflexivity.
Qed.

Lemma click_when_connected
    (c : CounterApp.Click) (ps ps' : CounterApp.PageState W) (t : list Event) :
  CounterApp.ui_isConnected (CounterApp.ui ps) = true ->
  CounterApp.click env contractAddress c ps = (ps', t) ->
  CounterApp.ui_isConnected (CounterApp.ui ps') = true /\
  this (CounterApp.service ps') = this (CounterApp.service ps) /\
  existsb is_connect_event t = false /\
  (contract (this (CounterApp.service ps)) = None ->
   t = [] /\ CounterApp.service ps' = CounterApp.service ps /\
   (CounterApp.clickable (CounterApp.ui ps) c = true ->
    CounterApp.ui_error (CounterApp.ui ps') = Some msg_contract_not_connected)).
Proof.
  intros Hflag. unfold CounterApp.click.
  destruct (CounterApp.clickable (CounterApp.ui ps) c) eqn:Hclick.
  2:{ intro H; inversion H; subst. repeat split; auto. discriminate. }
  destruct (CounterApp.onClick env contractAddress c ps) as [[r ps1] t1] eqn:Hon.
  apply onClick_summary in Hon. destruct Hon as [_ Hon].
  destruct c.
  - unfold CounterApp.clickable in Hclick. rewrite Hflag in Hclick.
    rewrite andb_false_r in Hclick. discriminate Hclick.
  - destruct Hon as (Hf & Ht & He & Hn). rewrite Hf, Bool.eqb_reflx.
    intro H; inversion H; subst. rewrite Hf.
    split; [exact Hflag|]. split; [exact Ht|]. split; [exact He|].
    intro Hnone. destruct (Hn Hnone) as (Ht0 & Hs0 & Herr). repeat split; auto.
  - destruct Hon as (Hf & Ht & He & Hn). rewrite Hf, Bool.eqb_reflx.
    intro H; inversion H; subst. rewrite Hf.
    split; [exact Hflag|]. split; [exact Ht|]. split; [exact He|].
    intro Hnone. destruct (Hn Hnone) as (Ht0 & Hs0 & Herr). repeat split; auto.
  - destruct Hon as (Hf & Ht & He & Hn). rewrite Hf, Bool.eqb_reflx.
    intro H; inversion H; subst. rewrite Hf.
    split; [exact Hflag|]. split; [exact Ht|]. split; [exact He|].
    intro Hnone. destruct (Hn Hnone) as (Ht0 & Hs0 & Herr). repeat split; auto.
Qed.

Lemma clicks_when_connected
    (cs : list CounterApp.Click) (ps ps' : CounterApp.PageState W) (t : list Event) :
  CounterApp.ui_isConnected (CounterApp.ui ps) = true ->
  CounterApp.clicks env contractAddress cs ps = (ps', t) ->
  CounterApp.ui_isConnected (CounterApp.ui ps') = true /\
  this (CounterApp.service ps') = this (CounterApp.service ps) /\
  existsb is_connect_event t = false.
Proof.
  revert ps ps' t. induction cs as [|c rest IH]; intros ps ps' t Hflag; cbn.
  - intro H; inversion H; subst. auto.
  - destruct (CounterApp.click env contractAddress c ps) as [ps1 t1] eqn:Hc.
    destruct (CounterApp.clicks env contractAddress rest ps1) as [ps2 t2] eqn:Hr.
    intro H; inversion H; subst; clear H.
    destruct (click_when_connected c ps Hflag Hc) as (Hf1 & Ht1 & He1 & _).
    destruct (IH ps1 ps' t2 Hf1 Hr) as (Hf2 & Ht2 & He2).
    split; [exact Hf2|]. split; [congruence|].
    rewrite existsb_app, He1, He2. reflexivity.
Qed.

(** Once the page shows the counter, it stays that way and the service is
    never connected again: whatever is clicked from then on, [isConnected]
    of the page stays true, the three handles of the service stay what they
    are, and no interaction of [connect] takes place. *)
Theorem page_connects_once
    (cs : list CounterApp.Click) (ps ps' : CounterApp.PageState W) (t : list Event) :
  CounterApp.ui_isConnected (CounterApp.ui ps) = true ->
  CounterApp.clicks env contractAddress cs ps = (ps', t) ->
  CounterApp.ui_isConnected (CounterApp.ui ps') = true /\
  this (CounterApp.service ps') = this (CounterApp.service ps) /\
  existsb is_connect_event t = false.
Proof. apply clicks_when_connected. Qed.

Lemma click_ends_not_loading
    (c : CounterApp.Click) (ps ps' : CounterApp.PageState W) (t : list Event) :
  CounterApp.ui_isLoading (CounterApp.ui ps) = false ->
  CounterApp.click env contractAddress c ps = (ps', t) ->
  CounterApp.ui_isLoading (CounterApp.ui ps') = false.
Proof.
  intros Hload. unfold CounterApp.click.
  destruct (CounterApp.clickable (CounterApp.ui ps) c) eqn:Hclick.
  - destruct (CounterApp.onClick env contractAddress c ps) as [[r ps3] t3] eqn:Hon.
    pose proof (onClick_summary _ _ Hon) as [Hl _].
    destruct (Bool.eqb _ _).
    + intro H; inversion H; subst. exact Hl.
    + destruct (CounterApp.effect_isConnected env ps3) as [[r4 ps4] t4] eqn:Heff.
      intro H; inversion H; subst.
      apply effect_summary in Heff. destruct Heff as (Hl4 & _). congruence.
  - intro H; inversion H; subst. exact Hload.
Qed.

(** No handler leaves the page loading: after any clicks, whatever the
    wallet and the chain answered and whatever failed, [isLoading] is false
    again and the buttons are enabled. *)
Theorem page_ends_not_loading
    (cs : list CounterApp.Click) (ps ps' : CounterApp.PageState W) (t : list Event) :
  CounterApp.ui_isLoading (CounterApp.ui ps) = false ->
  CounterApp.clicks env contractAddress cs ps = (ps', t) ->
  CounterApp.ui_isLoading (CounterApp.ui ps') = false.
Proof.
  revert ps ps' t. induction cs as [|c rest IH]; intros ps ps' t Hload; cbn.
  - intro H; inversion H; subst. exact Hload.
  - destruct (CounterApp.click env contractAddress c ps) as [ps1 t1] eqn:Hc.
    destruct (CounterApp.clicks env contractAddress rest ps1) as [ps2 t2] eqn:Hr.
    intro H; inversion H; subst; clear H.
    exact (IH ps1 ps' t2 (click_ends_not_loading c ps Hload Hc) Hr).
Qed.

Lemma click_while_not_connected
    (c : CounterApp.Click) (ps ps' : CounterApp.PageState W) (t : list Event) :
  CounterApp.click env contractAddress c ps = (ps', t) ->
  CounterApp.ui_isConnected (CounterApp.ui ps') = false ->
  CounterApp.ui_isConnected (CounterApp.ui ps) = false /\
  forallb is_connect_event t = true /\
  contract (this (CounterApp.service ps')) = contract (this (CounterApp.service ps)).
Proof.
  intros Hc Hafter.
  destruct (CounterApp.ui_isConnected (CounterApp.ui ps)) eqn:Hflag.
  { destruct (click_when_connected c ps Hflag Hc) as (Hf & _). congruence. }
  split; [reflexivity|].
  revert Hc. unfold CounterApp.click.
  destruct (CounterApp.clickable (CounterApp.ui ps) c) eqn:Hclick.
  2:{ intro H; inversion H; subst. split; reflexivity. }
  destruct (CounterApp.onClick env contractAddress c ps) as [[r ps1] t1] eqn:Hon.
  apply onClick_summary in Hon. destruct Hon as [_ Hon].
  destruct c;
    try (unfold CounterApp.clickable in Hclick; rewrite Hflag in Hclick;
         rewrite andb_false_r in Hclick; discriminate Hclick).
  destruct Hon as (r1 & s1 & t1' & Hcon & Hthis & Hres).
  destruct r1 as [[]|e].
  - rewrite Hres, Hflag. unfold Bool.eqb.
    destruct (CounterApp.effect_isConnected env ps1) as [[r2 ps2] t2] eqn:Heff.
    intro H; inversion H; subst.
    apply effect_summary in Heff. destruct Heff as (_ & Hf2 & _). congruence.
  - destruct Hres as (-> & Hf). rewrite Hf, Bool.eqb_reflx.
    intro H; inversion H; subst. split.
    + pose proof Hcon as Hk. apply connect_events_kind in Hk. exact Hk.
    + rewrite Hthis. pose proof Hcon as Hk. apply connect_contract in Hk.
      destruct Hk as [Heq | (Hok & _)]; [exact Heq | discriminate Hok].
Qed.

Lemma failed_connects_app
    (s s1 s2 : State W) (t1 t2 : list Event) :
  failed_connects env contractAddress s t1 s1 ->
  failed_connects env contractAddress s1 t2 s2 ->
  failed_connects env contractAddress s (t1 ++ t2) s2.
Proof.
  intros H1 H2. induction H1 as [s|s sa sb e ta tb Hcon Hrest IH].
  - exact H2.
  - rewrite <- app_assoc. eapply failed_more; [exact Hcon | exact (IH H2)].
Qed.

Lemma connectWallet_when_connect_raises
    (ps : CounterApp.PageState W) (e : JsThrown) (s1 : State W) (t1 : list Event) :
  connect env contractAddress (CounterApp.service ps) = (Throw e, s1, t1) ->
  exists u',
    CounterApp.connectWallet env contractAddress ps =
      (Ok tt, {| CounterApp.ui := u'; CounterApp.service := s1 |}, t1) /\
    CounterApp.ui_isConnected u' = CounterApp.ui_isConnected (CounterApp.ui ps).
Proof.
  intro H. destruct ps as [u s]. cbn [CounterApp.service CounterApp.ui] in *.
  unfold_page. rewrite H. cbn. rewrite !app_nil_r.
  eexists. split; reflexivity.
Qed.

Lemma click_failed_connects
    (c : CounterApp.Click) (ps ps' : CounterApp.PageState W) (t : list Event) :
  CounterApp.click env contractAddress c ps = (ps', t) ->
  CounterApp.ui_isConnected (CounterApp.ui ps') = false ->
  failed_connects env contractAddress
    (CounterApp.service ps) t (CounterApp.service ps').
Proof.
  intros Hc Hafter.
  destruct (CounterApp.ui_isConnected (CounterApp.ui ps)) eqn:Hflag.
  { destruct (click_when_connected c ps Hflag Hc) as (Hf & _). congruence. }
  revert Hc. unfold CounterApp.click.
  destruct (CounterApp.clickable (CounterApp.ui ps) c) eqn:Hclick.
  2:{ intro H; inversion H; subst. apply failed_none. }
  destruct c;
    try (unfold CounterApp.clickable in Hclick; rewrite Hflag in Hclick;
         rewrite andb_false_r in Hclick; discriminate Hclick).
  cbn [CounterApp.onClick].
  destruct (connect env contractAddress (CounterApp.service ps))
    as [[[[]|e] s1] t1] eqn:Hcon.
  - destruct (CounterApp.connectWallet env contractAddress ps)
      as [[r ps1] tw] eqn:Hon.
    pose proof (onClick_summary CounterApp.click_connect ps Hon) as [_ Hsum].
    destruct Hsum as (r1 & s1' & t1' & Hcon' & _ & Hres).
    rewrite Hcon in Hcon'. inversion Hcon'; subst.
    rewrite Hres, Hflag. unfold Bool.eqb.
    destruct (CounterApp.effect_isConnected env ps1) as [[r2 ps2] t2] eqn:Heff.
    intro H; inversion H; subst.
    apply effect_summary in Heff. destruct Heff as (_ & Hf2 & _). congruence.
  - destruct (connectWallet_when_connect_raises ps Hcon) as (u' & Hrun & Hf).
    rewrite Hrun. cbn [CounterApp.ui CounterApp.service].
    rewrite Hf, Bool.eqb_reflx.
    intro H; inversion H; subst. cbn [CounterApp.service].
    rewrite <- (app_nil_r t). eapply failed_more; [exact Hcon | apply failed_none].
Qed.

(** As long as the page shows the connect button, it has not touched the
    contract: if [isConnected] of the page is false after a sequence of
    clicks, it was false all along, and all the page did to the service was
    to call [connect], each time to see it raise: the interactions of the
    sequence are those of these calls, one after the other, and nothing
    else, the service is in the state the last of them left, and its
    contract handle is the one from before. *)
Theorem page_needs_connect_first
    (cs : list CounterApp.Click) (ps ps' : CounterApp.PageState W) (t : list Event) :
  CounterApp.clicks env contractAddress cs ps = (ps', t) ->
  CounterApp.ui_isConnected (CounterApp.ui ps') = false ->
  CounterApp.ui_isConnected (CounterApp.ui ps) = false /\
  failed_connects env contractAddress
    (CounterApp.service ps) t (CounterApp.service ps') /\
  forallb is_connect_event t = true /\
  contract (this (CounterApp.service ps')) = contract (this (CounterApp.service ps)).
Proof.
  revert ps ps' t. induction cs as [|c rest IH]; intros ps ps' t; cbn.
  - intro H; inversion H; subst. intro Hf. repeat split; auto. apply failed_none.
  - destruct (CounterApp.click env contractAddress c ps) as [ps1 t1] eqn:Hc.
    destruct (CounterApp.clicks env contractAddress rest ps1) as [ps2 t2] eqn:Hr.
    intro H; inversion H; subst; clear H. intro Hafter.
    destruct (IH ps1 ps' t2 Hr Hafter) as (Hf1 & Hfc2 & He2 & Hc2).
    destruct (click_while_not_connected c ps Hc Hf1) as (Hf0 & He1 & Hc1).
    split; [exact Hf0|].
    split; [eapply failed_connects_app; [exact (click_failed_connects c ps Hc Hf1) | exact Hfc2]|].
    split; [|congruence].
    rewrite forallb_app, He1, He2. reflexivity.
Qed.

Lemma click_keeps_not_connected_banner
    (c : CounterApp.Click) (ps ps' : CounterApp.PageState W) (t : list Event) :
  CounterApp.ui_isConnected (CounterApp.ui ps) = true ->
  contract (this (CounterApp.service ps)) = None ->
  CounterApp.ui_error (CounterApp.ui ps) = Some msg_contract_not_connected ->
  CounterApp.click env contractAddress c ps = (ps', t) ->
  CounterApp.ui_error (CounterApp.ui ps') = Some msg_contract_not_connected.
Proof.
  intros Hflag Hnone Herr Hc.
  destruct (click_when_connected c ps Hflag Hc) as (_ & _ & _ & Hstuck).
  destruct (Hstuck Hnone) as (_ & _ & Hset).
  destruct (CounterApp.clickable (CounterApp.ui ps) c) eqn:Hclick; [auto|].
  unfold CounterApp.click in Hc. rewrite Hclick in Hc.
  inversion Hc; subst. exact Herr.
Qed.

Lemma stuck_banner_stays (cs : list CounterApp.Click) :
  forall (ps ps' : CounterApp.PageState W) (t : list Event),
    CounterApp.ui_isConnected (CounterApp.ui ps) = true ->
    contract (this (CounterApp.service ps)) = None ->
    CounterApp.ui_error (CounterApp.ui ps) = Some msg_contract_not_connected ->
    CounterApp.clicks env contractAddress cs ps = (ps', t) ->
    CounterApp.ui_error (CounterApp.ui ps') = Some msg_contract_not_connected.
Proof.
  induction cs as [|c rest IH]; intros ps ps' t Hflag Hnone Herr; cbn.
  - intro H; inversion H; subst. exact Herr.
  - destruct (CounterApp.click env contractAddress c ps) as [ps1 t1] eqn:Hc.
    destruct (CounterApp.clicks env contractAddress rest ps1) as [ps2 t2] eqn:Hr.
    intro H; inversion H; subst; clear H.
    destruct (click_when_connected c ps Hflag Hc) as (Hf1 & _ & _ & Hstuck).
    destruct (Hstuck Hnone) as (_ & Hs1 & _).
    assert (Hnone1 : contract (this (CounterApp.service ps1)) = None)
      by (rewrite Hs1; exact Hnone).
    exact (IH ps1 ps' t2 Hf1 Hnone1
             (click_keeps_not_connected_banner c ps Hflag Hnone Herr Hc) Hr).
Qed.

(** The page after a [connect] that returned without a contract handle:
    it shows the counter and its buttons, and is stuck.  No click reaches
    the wallet or the chain, the service stays as it is, and every click
    on [+], [-] or reset ends with the not-connected error in the
    banner. *)
Theorem page_stuck_without_contract
    (cs : list CounterApp.Click) (ps ps' : CounterApp.PageState W) (t : list Event) :
  CounterApp.ui_isConnected (CounterApp.ui ps) = true ->
  CounterApp.ui_isLoading (CounterApp.ui ps) = false ->
  contract (this (CounterApp.service ps)) = None ->
  CounterApp.clicks env contractAddress cs ps = (ps', t) ->
  t = [] /\
  CounterApp.service ps' = CounterApp.service ps /\
  CounterApp.ui_isLoading (CounterApp.ui ps') = false /\
  ((exists c, In c cs /\ c <> CounterApp.click_connect) ->
   CounterApp.ui_error (CounterApp.ui ps') = Some msg_contract_not_connected).
Proof.
  revert ps ps' t. induction cs as [|c rest IH]; intros ps ps' t Hflag Hload Hnone; cbn.
  - intro H; inversion H; subst. repeat split; auto.
    intros (c & [] & _).
  - destruct (CounterApp.click env contractAddress c ps) as [ps1 t1] eqn:Hc.
    destruct (CounterApp.clicks env contractAddress rest ps1) as [ps2 t2] eqn:Hr.
    intro H; inversion H; subst; clear H.
    destruct (click_when_connected c ps Hflag Hc) as (Hf1 & _ & _ & Hstuck).
    destruct (Hstuck Hnone) as (-> & Hs1 & Herr1).
    pose proof (click_ends_not_loading c ps Hload Hc) as Hload1.
    assert (Hnone1 : contract (this (CounterApp.service ps1)) = None)
      by (rewrite Hs1; exact Hnone).
    destruct (IH ps1 ps' t2 Hf1 Hload1 Hnone1 Hr) as (-> & Hs2 & Hl2 & Herr2).
    split; [reflexivity|]. split; [congruence|]. split; [exact Hl2|].
    intros (c0 & [<- | Hin] & Hneq).
    + (* the click at the head set the banner; later clicks set it again or
         do nothing *)
      assert (Hclick : CounterApp.clickable (CounterApp.ui ps) c = true).
      { unfold CounterApp.clickable. rewrite Hload, Hflag.
        destruct c; [elim Hneq|..]; reflexivity. }
      specialize (Herr1 Hclick).
      exact (stuck_banner_stays rest ps1 Hf1 Hnone1 Herr1 Hr).
    + apply Herr2. exists c0. auto.
Qed.

End PageLife.

(** * Concrete runs of the further properties *)

Lemma connect_raises_Errors_witness :
  exists message code,
    JsError "network unreachable" None = JsError message code /\
    includes message "already pending" = false.
Proof.
  pose (s := Scripted.start new_CounterContractService unreachable_node).
  pose (run := connect Scripted.env Scripted.address s).
  apply (@connect_raises_Errors _ Scripted.env Scripted.address
           s (snd (fst run)) (JsError "network unreachable" None) (snd run)).
  vm_compute. reflexivity.
Defined.

Lemma connect_starts_with_accounts_witness :
  let s := Scripted.start new_CounterContractService pending_prompt in
  let run := connect Scripted.env Scripted.address s in
  (env_window Scripted.env (world s) = false /\
   fst (fst run) = Throw (new_Error msg_browser_only) /\
   error_kind (new_Error msg_browser_only) = Some EnvironmentError /\
   snd run = [] /\ snd (fst run) = s)
  \/
  (env_window Scripted.env (world s) = true /\
   env_ethereum Scripted.env (world s) = false /\
   fst (fst run) = Throw (new_Error msg_no_metamask) /\
   error_kind (new_Error msg_no_metamask) = Some WalletMissingError /\
   snd run = [] /\ snd (fst run) = s)
  \/
  (env_window Scripted.env (world s) = true /\
   env_ethereum Scripted.env (world s) = true /\
   exists res rest,
     snd run = EvRequest eth_requestAccounts res :: rest /\
     (forall e, res = Throw e ->
                rest = [] /\ this (snd (fst run)) = this s /\
                fst (fst run) = after_outer_catch (Throw e))).
Proof.
  intros s run.
  apply (@connect_starts_with_accounts _ Scripted.env Scripted.address
           s (snd (fst run)) (fst (fst run)) (snd run)).
  vm_compute. reflexivity.
Defined.

Lemma switch_requested_off_target_witness :
  let s := Scripted.start new_CounterContractService switch_accepted in
  let run := connect Scripted.env Scripted.address s in
  exists res rest,
    skipn 4 (snd run) = EvRequest (wallet_switchEthereumChain "0xaa36a7") res :: rest.
Proof.
  intros s run.
  apply (@switch_requested_off_target _ Scripted.env Scripted.address
           s (snd (fst run)) (fst (fst run)) (snd run)
           (firstn 3 (snd run)) (skipn 4 (snd run))
           {| provider_id := 0 |} Scripted.mainnet).
  - vm_compute. reflexivity.
  - vm_compute. reflexivity.
  - intros ev Hin. vm_compute in Hin.
    destruct Hin as [<- | [<- | [<- | []]]]; reflexivity.
  - vm_compute. discriminate.
Defined.

Lemma add_request_only_after_unknown_chain_witness :
  let s := Scripted.start new_CounterContractService unknown_chain_then_declined in
  let run := connect Scripted.env Scripted.address s in
  sepolia_parameter = sepolia_parameter /\
  exists pre' e,
    firstn 5 (snd run) =
      pre' ++ [EvRequest (wallet_switchEthereumChain "0xaa36a7") (Throw e)] /\
    has_code_4902 e = true.
Proof.
  intros s run.
  apply (@add_request_only_after_unknown_chain _ Scripted.env Scripted.address
           s (snd (fst run)) (fst (fst run)) (snd run)
           (firstn 5 (snd run)) [] sepolia_parameter
           (Throw (JsError "User rejected the request." (Some 4001)))).
  - vm_compute. reflexivity.
  - vm_compute. reflexivity.
Defined.

Lemma connect_success_handles_witness :
  let s := Scripted.start new_CounterContractService on_sepolia in
  let run := connect Scripted.env Scripted.address s in
  fst (fst run) = Ok tt /\
  exists p sg code pre,
    this (snd (fst run)) =
      {| contract := Some counter_contract; provider := Some p; signer := Some sg |} /\
    target counter_contract = Scripted.address /\
    runner counter_contract = Some sg /\
    signer_provider sg = p /\
    snd run = pre ++ [EvGetCode p Scripted.address (Ok code); EvNewContract counter_contract] /\
    code <> "0x"%string /\
    (heap_next s <= provider_id p < signer_id sg)%nat /\
    (signer_id sg < contract_id counter_contract < heap_next (snd (fst run)))%nat.
Proof.
  intros s run.
  apply (@connect_success_handles _ Scripted.env Scripted.address
           s (snd (fst run)) (fst (fst run)) (snd run) counter_contract).
  - vm_compute. reflexivity.
  - vm_compute. auto 10.
Defined.

Lemma empty_code_is_not_deployed_witness :
  let s := Scripted.start new_CounterContractService switch_then_no_code in
  let run := connect Scripted.env Scripted.address s in
  let text := not_deployed_message Scripted.address "mainnet" 1 in
  contract (this (snd (fst run))) = contract (this s) /\
  existsb is_new_contract (snd run) = false /\
  provider (this (snd (fst run))) = Some {| provider_id := 2 |} /\
  error_kind (new_Error text) = Some ContractNotFoundError /\
  fst (fst run) = (if includes text "already pending" then Ok tt else Throw (new_Error text)).
Proof.
  intros s run.
  apply (@empty_code_is_not_deployed _ Scripted.env Scripted.address
           s (snd (fst run)) (fst (fst run)) (snd run)
           (firstn 3 (snd run)) (skipn 4 (snd run))
           {| provider_id := 0 |} {| provider_id := 2 |} Scripted.mainnet).
  - vm_compute. reflexivity.
  - vm_compute. reflexivity.
  - intros ev Hin. vm_compute in Hin.
    destruct Hin as [<- | [<- | [<- | []]]]; reflexivity.
  - vm_compute. auto 12.
  - cbn. lia.
Defined.

Lemma mutation_waits_for_inclusion_witness :
  let s := Scripted.start connected_session included_then_read in
  let run := incrementCounter Scripted.env s in
  this (snd (fst run)) = this s /\
  ((exists e, snd run = [EvSend counter_contract m_incrementCounter (Throw e)] /\
              fst (fst run) = Throw e) \/
   (exists tx, snd run = [EvSend counter_contract m_incrementCounter (Ok tx);
                          EvWait tx (fst (fst run))])).
Proof.
  intros s run.
  apply (@mutation_waits_for_inclusion _ Scripted.env m_incrementCounter
           s (snd (fst run)) (fst (fst run)) (snd run) counter_contract).
  - reflexivity.
  - vm_compute. reflexivity.
Defined.

Lemma handles_stay_nested_witness :
  let s := Scripted.start new_CounterContractService unreachable_node in
  let after := run_ops Scripted.env Scripted.address
                 [op_connect; op_getWalletAddress; op_getCounter] s in
  handles_nested (this (snd after)) /\
  (forall c, contract (this (snd after)) = Some c ->
             exists res, snd (getCounter Scripted.env (snd after)) = [EvGetCounter c res]).
Proof.
  intros s after.
  apply (@handles_stay_nested _ Scripted.env Scripted.address
           [op_connect; op_getWalletAddress; op_getCounter] s (snd after) (fst after)).
  - reflexivity.
  - vm_compute. reflexivity.
Defined.

Lemma only_connect_writes_handles_witness :
  let s := Scripted.start connected_session included_then_read in
  let after := run_ops Scripted.env Scripted.address
                 [op_incrementCounter; op_getCounter; op_getOwner] s in
  this (snd after) = this s.
Proof.
  intros s after.
  apply (@only_connect_writes_handles _ Scripted.env Scripted.address
           [op_incrementCounter; op_getCounter; op_getOwner] s (snd after) (fst after)).
  - intros o Hin. vm_compute in Hin.
    destruct Hin as [<- | [<- | [<- | []]]]; discriminate.
  - vm_compute. reflexivity.
Defined.

Lemma failed_connect_leaves_usable_handles_witness :
  let s := Scripted.start new_CounterContractService unreachable_node in
  let run := connect Scripted.env Scripted.address s in
  let s' := snd (fst run) in
  exists p' sg',
    provider (this s') = Some p' /\
    signer (this s') = Some sg' /\
    (exists res, snd (getWalletAddress Scripted.env s') = [EvGetAddress sg' res]) /\
    (exists res, snd (getNetwork Scripted.env s') = [EvGetNetwork p' res]) /\
    (contract (this s) = None ->
     getCounter Scripted.env s' = (Throw (new_Error msg_contract_not_connected), s', [])).
Proof.
  intros s run s'.
  apply (@failed_connect_leaves_usable_handles _ Scripted.env Scripted.address
           s s' (JsError "network unreachable" None) (snd run)
           wallet_provider wallet_signer).
  - vm_compute. reflexivity.
  - vm_compute. auto 10.
Defined.

Lemma connectWallet_shows_connect_error_witness :
  let ps := mounted unreachable_node in
  let run := connect Scripted.env Scripted.address (CounterApp.service ps) in
  exists message code,
    JsError "network unreachable" None = JsError message code /\
    CounterApp.connectWallet Scripted.env Scripted.address ps =
      (Ok tt,
       {| CounterApp.ui :=
            {| CounterApp.ui_counter := CounterApp.ui_counter (CounterApp.ui ps);
               CounterApp.ui_isConnected := CounterApp.ui_isConnected (CounterApp.ui ps);
               CounterApp.ui_isLoading := false;
               CounterApp.ui_error := Some message;
               CounterApp.ui_owner := CounterApp.ui_owner (CounterApp.ui ps);
               CounterApp.ui_walletAddress := CounterApp.ui_walletAddress (CounterApp.ui ps);
               CounterApp.ui_networkName := CounterApp.ui_networkName (CounterApp.ui ps);
               CounterApp.ui_networkChainId := CounterApp.ui_networkChainId (CounterApp.ui ps) |};
          CounterApp.service := snd (fst run) |},
       snd run).
Proof.
  intros ps run.
  apply (@connectWallet_shows_connect_error _ Scripted.env Scripted.address
           ps (JsError "network unreachable" None) (snd (fst run)) (snd run)).
  vm_compute. reflexivity.
Defined.

Lemma connectWallet_banner_follows_counter_witness :
  let ps := mounted on_sepolia_with_loads in
  let c := connect Scripted.env Scripted.address (CounterApp.service ps) in
  let run := CounterApp.connectWallet_on_page Scripted.env Scripted.address
               CounterApp.effect_before_loadCounter ps in
  let u := CounterApp.ui ps in
  let u' := CounterApp.ui (snd (fst run)) in
  exists tl,
    snd run = snd c ++ tl /\
    fst (fst run) = Ok tt /\
    CounterApp.ui_isConnected u' = true /\
    CounterApp.ui_isLoading u' = false /\
    this (CounterApp.service (snd (fst run))) = this (snd (fst c)) /\
    length (filter is_getNetwork tl) = 1%nat /\
    length (filter is_owner_read tl) = 1%nat /\
    length (filter is_address_read tl) = 1%nat /\
    length (filter is_counter_read tl) =
      (if CounterApp.ui_isConnected u then 1%nat else 2%nat) /\
    length tl = (if CounterApp.ui_isConnected u then 4%nat else 5%nat) /\
    (CounterApp.ui_error u' = None <-> existsb is_counter_failure tl = false) /\
    CounterApp.ui_counter u' =
      match last_counter_value tl with
      | Some v => v
      | None => CounterApp.ui_counter u
      end /\
    CounterApp.ui_networkName u' =
      match last_network tl with
      | Some n => name n
      | None => CounterApp.ui_networkName u
      end /\
    CounterApp.ui_networkChainId u' =
      match last_network tl with
      | Some n => chainId n
      | None => CounterApp.ui_networkChainId u
      end /\
    CounterApp.ui_owner u' =
      match last_owner tl with
      | Some o => o
      | None => CounterApp.ui_owner u
      end /\
    CounterApp.ui_walletAddress u' =
      match last_address tl with
      | Some a => a
      | None => CounterApp.ui_walletAddress u
      end.
Proof.
  intros ps c run u u'.
  apply (@connectWallet_banner_follows_counter _ Scripted.env Scripted.address
           CounterApp.effect_before_loadCounter ps (snd (fst run))
           (snd (fst c)) (snd c) (snd run) (fst (fst run))
           counter_contract wallet_provider wallet_signer).
  - vm_compute. reflexivity.
  - vm_compute. reflexivity.
  - vm_compute. reflexivity.
Defined.

Lemma connectWallet_after_swallowed_connect_witness :
  let ps := mounted pending_prompt in
  let run := CounterApp.connectWallet Scripted.env Scripted.address ps in
  let ps' := snd (fst run) in
  CounterApp.ui_isConnected (CounterApp.ui ps') = true /\
  isConnected (CounterApp.service ps') = (Ok false, CounterApp.service ps', []) /\
  CounterApp.ui_error (CounterApp.ui ps') = Some msg_contract_not_connected /\
  CounterApp.ui_counter (CounterApp.ui ps') = CounterApp.ui_counter (CounterApp.ui ps) /\
  CounterApp.ui_owner (CounterApp.ui ps') = CounterApp.ui_owner (CounterApp.ui ps).
Proof.
  intros ps run ps'.
  pose (c := connect Scripted.env Scripted.address (CounterApp.service ps)).
  apply (@connectWallet_after_swallowed_connect _ Scripted.env Scripted.address
           ps ps' (snd (fst c)) (snd c) (snd run) (fst (fst run))).
  - vm_compute. reflexivity.
  - vm_compute. reflexivity.
  - vm_compute. reflexivity.
Defined.

Lemma submit_reads_after_inclusion_witness :
  let ps := page_showing_counter connected_session included_then_read in
  let run := CounterApp.incrementCounter Scripted.env ps in
  CounterApp.ui_isLoading (CounterApp.ui (snd (fst run))) = false /\
  CounterApp.ui_counter (CounterApp.ui (snd (fst run))) = 8 /\
  this (CounterApp.service (snd (fst run))) = this (CounterApp.service ps).
Proof.
  intros ps run.
  destruct (@submit_reads_after_inclusion _ Scripted.env m_incrementCounter
              "카운터 증가에 실패했습니다." ps (snd (fst run)) (fst (fst run)) (snd run)
              counter_contract wallet_provider)
    as (_ & Hload & _ & Hthis & _).
  - reflexivity.
  - reflexivity.
  - vm_compute. reflexivity.
  - split; [exact Hload|]. split; [vm_compute; reflexivity | exact Hthis].
Defined.

Lemma page_connects_once_witness :
  let ps := page_showing_counter connected_session included_then_read in
  let run := CounterApp.clicks Scripted.env Scripted.address
               [CounterApp.click_connect; CounterApp.click_increment] ps in
  CounterApp.ui_isConnected (CounterApp.ui (fst run)) = true /\
  this (CounterApp.service (fst run)) = this (CounterApp.service ps) /\
  existsb is_connect_event (snd run) = false.
Proof.
  intros ps run.
  apply (@page_connects_once _ Scripted.env Scripted.address
           [CounterApp.click_connect; CounterApp.click_increment] ps (fst run) (snd run)).
  - reflexivity.
  - vm_compute. reflexivity.
Defined.

Lemma page_stuck_without_contract_witness :
  let ps := page_showing_counter new_CounterContractService included_then_read in
  let run := CounterApp.clicks Scripted.env Scripted.address
               [CounterApp.click_increment; CounterApp.click_connect] ps in
  snd run = [] /\
  CounterApp.service (fst run) = CounterApp.service ps /\
  CounterApp.ui_isLoading (CounterApp.ui (fst run)) = false /\
  ((exists c, In c [CounterApp.click_increment; CounterApp.click_connect] /\
              c <> CounterApp.click_connect) ->
   CounterApp.ui_error (CounterApp.ui (fst run)) = Some msg_contract_not_connected).
Proof.
  intros ps run.
  apply (@page_stuck_without_contract _ Scripted.env Scripted.address
           [CounterApp.click_increment; CounterApp.click_connect] ps (fst run) (snd run)).
  - reflexivity.
  - reflexivity.
  - reflexivity.
  - vm_compute. reflexivity.
Defined.

Lemma page_ends_not_loading_witness :
  let ps := mounted on_sepolia_with_loads in
  let run := CounterApp.clicks Scripted.env Scripted.address
               [CounterApp.click_connect; CounterApp.click_reset] ps in
  CounterApp.ui_isLoading (CounterApp.ui (fst run)) = false.
Proof.
  intros ps run.
  apply (@page_ends_not_loading _ Scripted.env Scripted.address
           [CounterApp.click_connect; CounterApp.click_reset] ps (fst run) (snd run)).
  - reflexivity.
  - vm_compute. reflexivity.
Defined.

Lemma page_needs_connect_first_witness :
  let ps := mounted unreachable_node in
  let run := CounterApp.clicks Scripted.env Scripted.address
               [CounterApp.click_increment; CounterApp.click_connect] ps in
  CounterApp.ui_isConnected (CounterApp.ui ps) = false /\
  failed_connects Scripted.env Scripted.address
    (CounterApp.service ps) (snd run) (CounterApp.service (fst run)) /\
  forallb is_connect_event (snd run) = true /\
  contract (this (CounterApp.service (fst run))) = contract (this (CounterApp.service ps)).
Proof.
  intros ps run.
  apply (@page_needs_connect_first _ Scripted.env Scripted.address
           [CounterApp.click_increment; CounterApp.click_connect] ps (fst run) (snd run)).
  - vm_compute. reflexivity.
  - vm_compute. reflexivity.
Defined.
